(** * Celebrity marriage survival analysis: a shallow embedding

    The analysis scripts of the repository (analysis.py, data_check.py,
    step2_analysis.py, step3_comparative_analysis.py,
    step5_psycho_economic_analysis.py) are pandas pipelines over one table
    of marriage records.  A table is a list of rows; a row is a record with
    one field per CSV column; a missing cell (NaN / NaT) is [None].

    Modelling conventions:
    - a pandas Timestamp is the integer number of nanoseconds since the
      epoch, a Timedelta the difference of two of them, and [.dt.days] is
      the floor division by the nanoseconds of one day; pandas subtracts
      on int64 nanoseconds and stops the script with an OverflowError when
      a difference leaves that range: the column functions give the value
      of a difference that is in range, [Frame.sub_overflows] tells when it
      is not, and [Analysis.run_cleaning] is the cleaning with that error
      path;
    - float64 columns (durations in years, age gaps, fame scores) are exact
      rationals [Q]; the comparisons the scripts make are against constants
      which are exactly representable, so the rational reading decides them
      the same way;
    - a Python [str] is a [string] of bytes; [str.lower] acts on the ASCII
      letters.  The multi-byte characters whose lower-casing yields an ASCII
      letter (U+0130, U+212A) yield "i" followed by a combining dot, or "k",
      and therefore can never complete one of the keywords searched here. *)

From Stdlib Require Import ZArith QArith Qabs Lia Lqa List String Ascii Bool.
Import ListNotations.

Open Scope string_scope.
Open Scope Z_scope.

(* ===================================================================== *)
(** ** Python strings *)
(* ===================================================================== *)

Module PyStr.

(** [c.lower()] for a single character: "A".."Z" move to "a".."z". *)
Definition lower_ascii (c : ascii) : ascii :=
  let n := nat_of_ascii c in
  if (65 <=? n)%nat && (n <=? 90)%nat then ascii_of_nat (n + 32) else c.

(** [s.lower()] *)
Fixpoint lower (s : string) : string :=
  match s with
  | EmptyString => EmptyString
  | String c s' => String (lower_ascii c) (lower s')
  end.

(** [hay.startswith(needle)] *)
Fixpoint startswith (needle hay : string) : bool :=
  match needle, hay with
  | EmptyString, _ => true
  | String _ _, EmptyString => false
  | String a n', String b h' => Ascii.eqb a b && startswith n' h'
  end.

(** [needle in hay] on strings: substring search. *)
Fixpoint py_in (needle hay : string) : bool :=
  startswith needle hay ||
  match hay with
  | EmptyString => false
  | String _ h' => py_in needle h'
  end.

(** A cell of an object column: text, or the float NaN that [read_csv]
    stores for an empty field. *)
Inductive cell : Type :=
| NaN : cell
| Str : string -> cell.

(** [str(x)] for such a cell: [str(float('nan'))] is ["nan"]. *)
Definition py_str (x : cell) : string :=
  match x with
  | NaN => "nan"
  | Str s => s
  end.

(** Case-insensitive substring match, as a proposition: some contiguous
    piece of [text] equals [kw] up to the case of its letters. *)
Definition contains_ci (kw text : string) : Prop :=
  exists pre mid post,
    text = pre ++ mid ++ post /\ lower mid = lower kw.

End PyStr.

(* ===================================================================== *)
(** ** The table *)
(* ===================================================================== *)

Module Frame.

(** pandas Timestamp: nanoseconds since the epoch. *)
Definition Timestamp := Z.

Definition NS_PER_DAY : Z := 86400000000000.

(** [Timedelta.days]: whole days, rounded towards minus infinity. *)
Definition td_days (delta : Z) : Z := delta / NS_PER_DAY.

(** The fixed average year of the scripts, [365.25]. *)
Definition DAYS_PER_YEAR : Q := 1461 # 4.

(** One row; the union of the columns of the CSV files the scripts read.
    Date columns are given after [pd.to_datetime(..., errors='coerce')]:
    an absent or unparseable date is NaT, here [None]. *)
Record Row : Type := mkRow {
  Celebrity : PyStr.cell;
  Spouse : PyStr.cell;
  Start_Date : option Timestamp;
  End_Date : option Timestamp;
  End_Cause : PyStr.cell;
  Celebrity_Birth : option Timestamp;
  Spouse_Birth : option Timestamp;
  Celebrity_Fame_Score : option Q;
  Spouse_Fame_Score : option Q;
  Career_Start_Year : option Timestamp;
  Children_Count : option Z;
  Awards_Count : option Z
}.

Definition DataFrame := list Row.

(** [pd.isnull] / [Series.notnull] on a cell. *)
Definition isnull {A} (x : option A) : bool :=
  match x with None => true | Some _ => false end.
Definition notnull {A} (x : option A) : bool := negb (isnull x).

(** [Series.fillna(v)] on a cell. *)
Definition fillna {A} (v : A) (x : option A) : A :=
  match x with None => v | Some a => a end.

(** Comparisons of a float cell with a constant: NaN compares false. *)
Definition Qlt_bool (x y : Q) : bool := negb (Qle_bool y x).
Definition gt_cell (x : option Q) (c : Q) : bool :=
  match x with None => false | Some a => Qlt_bool c a end.
Definition lt_cell (x : option Q) (c : Q) : bool :=
  match x with None => false | Some a => Qlt_bool a c end.
Definition le_cell (x : option Q) (c : Q) : bool :=
  match x with None => false | Some a => Qle_bool a c end.
Definition gtZ_cell (x : option Z) (c : Z) : bool :=
  match x with None => false | Some a => c <? a end.

(** [df['Observed_End_Date'] = df['End_Date'].fillna(today)] *)
Definition Observed_End_Date (today : Timestamp) (r : Row) : Timestamp :=
  fillna today (End_Date r).

(** [(df['Observed_End_Date'] - df['Start_Date']).dt.days]: NaN when the
    start date is NaT. *)
Definition Duration_Days (today : Timestamp) (r : Row) : option Z :=
  match Start_Date r with
  | None => None
  | Some s => Some (td_days (Observed_End_Date today r - s))
  end.

(** [days / 365.25] *)
Definition years_of_days (d : Z) : Q := inject_Z d / DAYS_PER_YEAR.

(** [df['Duration_Years'] = df['Duration_Days'] / 365.25] *)
Definition Duration_Years (today : Timestamp) (r : Row) : option Q :=
  option_map years_of_days (Duration_Days today r).

(** [df.dropna(subset=['Start_Date'])] *)
Definition dropna_Start_Date (df : DataFrame) : DataFrame :=
  filter (fun r => notnull (Start_Date r)) df.

(** The range of the int64 nanoseconds of a Timedelta. *)
Definition INT64_MIN : Z := - 2 ^ 63.
Definition INT64_MAX : Z := 2 ^ 63 - 1.

(** [a - b] on two datetime columns raises OverflowError when the
    difference does not fit int64 nanoseconds.  (The smallest int64 is
    the NaT marker: that difference raises nothing, and a row with it is
    dropped by the duration filter like any row with a negative day
    count.) *)
Definition sub_overflows (a b : Timestamp) : bool :=
  (a - b <? INT64_MIN) || (INT64_MAX <? a - b).

(** Whether [df['Observed_End_Date'] - df['Start_Date']] overflows on this
    row; a NaT start gives NaT and no error. *)
Definition duration_overflows (today : Timestamp) (r : Row) : bool :=
  match Start_Date r with
  | None => false
  | Some s => sub_overflows (Observed_End_Date today r) s
  end.

End Frame.

(* ===================================================================== *)
(** ** Column statistics and binning *)
(* ===================================================================== *)

Module Stats.
Import Frame.

Definition Qsum (l : list Q) : Q := fold_right Qplus 0%Q l.

(** [Series.mean()]: NaN on an empty column. *)
Definition mean (l : list Q) : option Q :=
  match l with
  | [] => None
  | _ => Some (Qsum l / inject_Z (Z.of_nat (List.length l)))%Q
  end.

Fixpoint insert_sorted (x : Q) (l : list Q) : list Q :=
  match l with
  | [] => [x]
  | y :: l' => if Qle_bool x y then x :: l else y :: insert_sorted x l'
  end.

Definition sort (l : list Q) : list Q := fold_right insert_sorted [] l.

(** [Series.median()]: the middle value of the sorted column, the mean of
    the two middle values when the length is even, NaN when empty. *)
Definition median (l : list Q) : option Q :=
  let s := sort l in
  let n := List.length s in
  match n with
  | O => None
  | _ =>
      if Nat.even n
      then Some ((nth (n / 2 - 1)%nat s 0 + nth (n / 2)%nat s 0) / 2)%Q
      else Some (nth (n / 2)%nat s 0%Q)
  end.

(** The non-missing cells of a column ([skipna]). *)
Fixpoint present {A} (l : list (option A)) : list A :=
  match l with
  | [] => []
  | None :: l' => present l'
  | Some a :: l' => a :: present l'
  end.

(** [pd.cut(x, bins, labels)] with the default [right=True]: the label of
    the half-open interval (lo, hi] that holds [x], NaN outside all. *)
Fixpoint cut (bins : list Q) (labels : list string) (x : Q) : option string :=
  match bins, labels with
  | lo :: ((hi :: _) as rest), lab :: labs =>
      if Qlt_bool lo x && Qle_bool x hi then Some lab else cut rest labs x
  | _, _ => None
  end.

(** One line of a [groupby(...).agg(...)] result. *)
Record agg : Type := mkAgg {
  Total_Marriages : nat;
  Divorce_Rate : option Q;
  Median_Duration : option Q
}.

End Stats.

(* ===================================================================== *)
(** ** analysis.py *)
(* ===================================================================== *)

Module Analysis.
Import PyStr Frame Stats.

(** Lines 14-19: drop rows without a start date, compute the durations,
    keep the rows with [Duration_Days > 0]. *)
Definition df (today : Timestamp) (raw : DataFrame) : DataFrame :=
  filter (fun r => gtZ_cell (Duration_Days today r) 0)
         (dropna_Start_Date raw).

(** Lines 22-26. *)
Definition get_event_status (row : Row) : Z :=
  if isnull (End_Date row) then 0
  else
    let cause := lower (py_str (End_Cause row)) in
    if py_in "death" cause || py_in "widow" cause then 0
    else 1.

Definition Event_Divorce (r : Row) : Z := get_event_status r.

(** [df['Event_Divorce'].map({1: 'Divorced', 0: 'Ongoing/Widowed'})] *)
Definition Status_Label (r : Row) : option string :=
  match Event_Divorce r with
  | 1 => Some "Divorced"
  | 0 => Some "Ongoing/Widowed"
  | _ => None
  end.

(** Line 32: NaN when either birth date is NaT. *)
Definition Age_Gap (r : Row) : option Q :=
  match Celebrity_Birth r, Spouse_Birth r with
  | Some c, Some s => Some (Qabs (years_of_days (td_days (c - s))))
  | _, _ => None
  end.

(** Line 33. *)
Definition Fame_Gap_Raw (r : Row) : option Q :=
  match Celebrity_Fame_Score r, Spouse_Fame_Score r with
  | Some c, Some s => Some (Qabs (c - s))
  | _, _ => None
  end.

(** Line 34. *)
Definition Spouse_Type (r : Row) : string :=
  if gt_cell (Spouse_Fame_Score r) 20 then "Famous Spouse"
  else "Non-Famous Spouse".

(** Lines 37-38. *)
Definition df_clean (today : Timestamp) (raw : DataFrame) : DataFrame :=
  filter (fun r => lt_cell (Age_Gap r) 60)
         (filter (fun r => notnull (Age_Gap r)) (df today raw)).

(** Lines 44-46. *)
Definition bins : list Q := [0; 5; 10; 20; 100]%Q.
Definition labels : list string :=
  ["0-5 Years"; "5-10 Years"; "10-20 Years"; "20+ Years"].
Definition Age_Gap_Bin (r : Row) : option string :=
  match Age_Gap r with
  | None => None
  | Some g => cut bins labels g
  end.

(** The three aggregates both [groupby] calls compute on a group. *)
Definition aggregate (today : Timestamp) (group : DataFrame) : agg :=
  {| Total_Marriages := List.length (present (map Status_Label group));
     Divorce_Rate := mean (map (fun r => inject_Z (Event_Divorce r)) group);
     Median_Duration := median (present (map (Duration_Years today) group)) |}.

Definition in_bin (lab : string) (r : Row) : bool :=
  match Age_Gap_Bin r with
  | None => false
  | Some l => String.eqb l lab
  end.

(** Lines 49-53: one line per category, empty ones included
    ([observed=False]). *)
Definition age_gap_stats (today : Timestamp) (raw : DataFrame)
  : list (string * agg) :=
  map (fun lab => (lab, aggregate today (filter (in_bin lab) (df_clean today raw))))
      labels.

(** Lines 56-60: one line per spouse type that occurs, in key order. *)
Definition fame_stats (today : Timestamp) (raw : DataFrame)
  : list (string * agg) :=
  flat_map
    (fun lab =>
       match filter (fun r => String.eqb (Spouse_Type r) lab) (df_clean today raw) with
       | [] => []
       | g => [(lab, aggregate today g)]
       end)
    ["Famous Spouse"; "Non-Famous Spouse"].

(** Lines 14-19 with their error path: the subtraction of line 17 is made
    on the whole column of the rows that have a start date; when it
    overflows on some row the script stops with OverflowError and there is
    no table ([None]), otherwise the table is [df]. *)
Definition run_cleaning (today : Timestamp) (raw : DataFrame)
  : option DataFrame :=
  if existsb (duration_overflows today) (dropna_Start_Date raw) then None
  else Some (df today raw).

End Analysis.

(* ===================================================================== *)
(** ** data_check.py *)
(* ===================================================================== *)

Module DataCheck.
Import PyStr Frame Stats.

(** The script converts the two date columns and adds the duration
    columns; it drops no row. *)
Definition df (raw : DataFrame) : DataFrame := raw.

(** Line 23. *)
Definition Status (r : Row) : string :=
  if notnull (End_Date r) then "Ended" else "Ongoing".

(** [len(df)], printed as Total Records. *)
Definition Total_Records (raw : DataFrame) : nat := List.length (df raw).

(** [df[df['Status'] == 'Ended']] *)
Definition ended (raw : DataFrame) : DataFrame :=
  filter (fun r => String.eqb (Status r) "Ended") (df raw).

(** Line 34: the median of [Duration_Years] over the ended rows. *)
Definition avg_duration (today : Timestamp) (raw : DataFrame) : option Q :=
  median (present (map (Duration_Years today) (ended raw))).

End DataCheck.

(* ===================================================================== *)
(** ** The Kaplan-Meier estimator *)
(* ===================================================================== *)

Module KaplanMeier.
Import Frame.

(** Modelled from the spec: the ObservationWindow of section 3, the
    (duration, event) pair an estimator is fitted on. *)
Record ObservationWindow : Type := mkObs {
  duration_in_years : Q;
  event_observed : bool
}.

(** Modelled from the spec: the duration of an ObservationWindow is a
    positive real (section 3); the scripts filter their durations to be
    positive before every fit.  The record does not carry the proof; a
    list of windows is valid when each duration is positive. *)
Definition valid_windows (obs : list ObservationWindow) : Prop :=
  forall o, In o obs -> (0 < duration_in_years o)%Q.

(** Modelled from the spec: [d_t], the number of events at time [t]. *)
Definition d_ (obs : list ObservationWindow) (t : Q) : nat :=
  List.length
    (filter (fun o => event_observed o && Qeq_bool (duration_in_years o) t) obs).

(** Modelled from the spec: [n_t], the number still at risk immediately
    before [t], that is the observations neither failed nor censored
    before [t]. *)
Definition n_ (obs : list ObservationWindow) (t : Q) : nat :=
  List.length (filter (fun o => Qle_bool t (duration_in_years o)) obs).

Fixpoint insert_distinct (x : Q) (l : list Q) : list Q :=
  match l with
  | [] => [x]
  | y :: l' =>
      if Qeq_bool x y then l
      else if Qle_bool x y then x :: l
      else y :: insert_distinct x l'
  end.

(** Modelled from the spec: the distinct times at which at least one event
    occurs, sorted ascending. *)
Definition event_times (obs : list ObservationWindow) : list Q :=
  fold_right insert_distinct []
    (map duration_in_years (filter event_observed obs)).

(** Modelled from the spec: the factor [1 - d_t / n_t] of one event time. *)
Definition factor (obs : list ObservationWindow) (t : Q) : Q :=
  (1 - inject_Z (Z.of_nat (d_ obs t)) / inject_Z (Z.of_nat (n_ obs t)))%Q.

(** Modelled from the spec: the fitting routine is
    [lifelines.KaplanMeierFitter], a library the scripts import; only the
    calls are in the repository.  Section 4.3 of the specification gives
    the estimator: starting from 1, at each event time in ascending order
    [S(t) = S(t-) * (1 - d_t / n_t)]; the curve is a right-continuous step
    function, so a query at [t] takes every event time up to and
    including [t] into account. *)
Definition survival_function (obs : list ObservationWindow) (t : Q) : Q :=
  fold_left (fun s u => (s * factor obs u)%Q)
            (filter (fun u => Qle_bool u t) (event_times obs))
            1%Q.

(** Modelled from the spec: the median survival time, the smallest [t]
    with [S(t) <= 0.5], undefined when the curve never drops that far. *)
Definition median_survival_time (obs : list ObservationWindow) : option Q :=
  find (fun u => Qle_bool (survival_function obs u) (1 # 2))
       (event_times obs).

End KaplanMeier.

(* ===================================================================== *)
(** ** step2_analysis.py *)
(* ===================================================================== *)

Module Step2.
Import PyStr Frame Stats.

(** Lines 26-36. *)
Definition df (today : Timestamp) (raw : DataFrame) : DataFrame :=
  filter (fun r => gtZ_cell (Duration_Days today r) 0)
         (dropna_Start_Date raw).

(** Lines 40-48. *)
Definition get_event_status (row : Row) : Z :=
  if isnull (End_Date row) then 0
  else
    let cause := lower (py_str (End_Cause row)) in
    if py_in "death" cause || py_in "widow" cause then 0
    else 1.

Definition Event_Divorce (r : Row) : Z := get_event_status r.

(** Line 54: a missing age gap is filled with 0. *)
Definition Age_Gap (r : Row) : Q :=
  fillna 0%Q
    match Celebrity_Birth r, Spouse_Birth r with
    | Some c, Some s => Some (Qabs (years_of_days (td_days (c - s))))
    | _, _ => None
    end.

(** Lines 57-60. *)
Definition Fame_Gap (r : Row) : Q :=
  Qabs (fillna 0%Q (Celebrity_Fame_Score r) - fillna 0%Q (Spouse_Fame_Score r)).
Definition Is_Famous_Spouse (r : Row) : Z :=
  if Qlt_bool 20 (fillna 0%Q (Spouse_Fame_Score r)) then 1 else 0.

(** Line 61. *)
Definition Spouse_Type_Label (r : Row) : string :=
  if Is_Famous_Spouse r =? 1 then "Famous Spouse" else "Non-Famous".

(** Lines 65-66: the columns handed to [KaplanMeierFitter.fit]. *)
Definition km_input (today : Timestamp) (raw : DataFrame)
  : list KaplanMeier.ObservationWindow :=
  present
    (map (fun r =>
            option_map (fun y => KaplanMeier.mkObs y (Event_Divorce r =? 1))
                       (Duration_Years today r))
         (df today raw)).

(** Line 72: the rows kept for the logistic regression. *)
Definition model_data (today : Timestamp) (raw : DataFrame) : DataFrame :=
  filter (fun r => (Event_Divorce r =? 1) || gt_cell (Duration_Years today r) 5)
         (df today raw).

(** Line 73. *)
Definition Target_Short_Marriage (today : Timestamp) (r : Row) : Z :=
  if le_cell (Duration_Years today r) 5 then 1 else 0.

(** Lines 75-76. *)
Definition X (today : Timestamp) (raw : DataFrame) : list (Q * Q * Z) :=
  map (fun r => (Age_Gap r, Fame_Gap r, Is_Famous_Spouse r))
      (model_data today raw).
Definition y (today : Timestamp) (raw : DataFrame) : list Z :=
  map (Target_Short_Marriage today) (model_data today raw).

End Step2.

(* ===================================================================== *)
(** ** step3_comparative_analysis.py *)
(* ===================================================================== *)

Module Step3.
Import PyStr Frame Stats.

(** Lines 15-20. *)
Definition df (today : Timestamp) (raw : DataFrame) : DataFrame :=
  filter (fun r => gt_cell (Duration_Years today r) 0)
         (dropna_Start_Date raw).

(** Lines 23-26. *)
Definition get_status (row : Row) : Z :=
  if isnull (End_Date row) then 0
  else if py_in "death" (lower (py_str (End_Cause row))) then 0
  else 1.

Definition Event (r : Row) : Z := get_status r.

(** Line 45: a simulated duration is capped at 60 years. *)
Definition cap_years (simulated_years : Q) : Q :=
  if Qlt_bool 60 simulated_years then 60%Q else simulated_years.

(** Lines 39-54: one pass of the loop for each pair of random outcomes, the
    Weibull draw and the result of [np.random.choice([1, 0], ...)]; the
    pass appends the capped duration and the chosen event flag. *)
Definition simulate (draws : list (Q * Z)) : list (Q * Z) :=
  map (fun wc => (cap_years (fst wc * 15), snd wc)) draws.

(** A row of the three-column tables that are concatenated. *)
Record GroupRow : Type := mkGroupRow {
  g_Duration_Years : option Q;
  g_Event : Z;
  Group : string
}.

(** Lines 57-61. *)
Definition df_normal (draws : list (Q * Z)) : list GroupRow :=
  map (fun de => mkGroupRow (Some (fst de)) (snd de)
                            "General Population (Simulated)")
      (simulate draws).

(** Lines 63, 67: the celebrity table with its group column. *)
Definition df_celebrities (today : Timestamp) (raw : DataFrame) : list GroupRow :=
  map (fun r => mkGroupRow (Duration_Years today r) (Event r) "Celebrities")
      (df today raw).

(** Lines 66-69. *)
Definition combined_df (today : Timestamp) (raw : DataFrame)
  (draws : list (Q * Z)) : list GroupRow :=
  df_celebrities today raw ++ df_normal draws.

(** Lines 78-79 and 83-84: [combined_df[combined_df['Group'] == label]]. *)
Definition select_group (label : string) (combined : list GroupRow)
  : list GroupRow :=
  filter (fun g => String.eqb (Group g) label) combined.

End Step3.

(* ===================================================================== *)
(** ** step5_psycho_economic_analysis.py *)
(* ===================================================================== *)

Module Step5.
Import PyStr Frame Stats.

(** Lines 16-22: rows need a start date, a birth date and a career start;
    then [Duration_Years > 0]. *)
Definition normalized (today : Timestamp) (raw : DataFrame) : DataFrame :=
  filter (fun r => gt_cell (Duration_Years today r) 0)
    (filter (fun r => notnull (Start_Date r) && notnull (Celebrity_Birth r)
                      && notnull (Career_Start_Year r))
            raw).

(** Lines 25-28. *)
Definition get_status (row : Row) : Z :=
  if isnull (End_Date row) then 0
  else if py_in "death" (lower (py_str (End_Cause row))) then 0
  else 1.

Definition Event (r : Row) : Z := get_status r.

(** Line 33. *)
Definition Age_At_Debut (r : Row) : option Q :=
  match Career_Start_Year r, Celebrity_Birth r with
  | Some c, Some b => Some (years_of_days (td_days (c - b)))
  | _, _ => None
  end.

(** Line 36: the mask of the age filter. *)
Definition valid_age (r : Row) : bool :=
  gt_cell (Age_At_Debut r) 0 && lt_cell (Age_At_Debut r) 80.

Definition df (today : Timestamp) (raw : DataFrame) : DataFrame :=
  filter valid_age (normalized today raw).

(** Lines 39-40. *)
Definition Is_Child_Star (r : Row) : string :=
  if lt_cell (Age_At_Debut r) 16 then "Child Star" else "Adult Debut".
Definition Is_Child_Star_Binary (r : Row) : Z :=
  if lt_cell (Age_At_Debut r) 16 then 1 else 0.

(** Line 44. *)
Definition Children_Category (r : Row) : option string :=
  match Children_Count r with
  | None => None
  | Some n =>
      cut [-1; 0; 2; 20]%Q ["No Kids"; "1-2 Kids"; "3+ Kids"] (inject_Z n)
  end.

(** Line 64: the rows of one child-star group. *)
Definition child_star_group (today : Timestamp) (raw : DataFrame)
  (group : string) : DataFrame :=
  filter (fun r => String.eqb (Is_Child_Star r) group) (df today raw).

(** Line 75: the rows of one children category; a row without a
    category compares unequal to every label. *)
Definition children_group (today : Timestamp) (raw : DataFrame)
  (group : string) : DataFrame :=
  filter (fun r => match Children_Category r with
                   | Some l => String.eqb l group
                   | None => false
                   end)
         (df today raw).

(** Line 51: the table handed to [CoxPHFitter.fit]. *)
Definition cox_data (today : Timestamp) (raw : DataFrame)
  : list (option Q * Z * Z * option Z * option Z) :=
  map (fun r => (Duration_Years today r, Event r, Is_Child_Star_Binary r,
                 Children_Count r, Awards_Count r))
      (df today raw).

End Step5.

(* ===================================================================== *)
(** ** data_collector.py and the other fetchers: parsing the bindings *)
(* ===================================================================== *)

Module Fetch.

(** A JSON object with string keys, as the parsed response holds them. *)
Definition dict (V : Type) : Type := list (string * V).

(** [d.get(key)]: [None] when the key is absent. *)
Fixpoint dict_get {V} (key : string) (d : dict V) : option V :=
  match d with
  | [] => None
  | (k, v) :: d' => if String.eqb k key then Some v else dict_get key d'
  end.

(** One binding, such as [{'type': 'literal', 'value': '2010-01-01T00:00:00Z'}],
    and one item of [data['results']['bindings']]. *)
Definition binding : Type := dict string.
Definition item : Type := dict binding.

(** [item.get(key, {}).get('value', None)] *)
Definition get_val (it : item) (key : string) : option string :=
  match dict_get key it with
  | None => None
  | Some b => dict_get "value" b
  end.

(** [s.split('T')[0]]: the text before the first "T". *)
Fixpoint before_T (s : string) : string :=
  match s with
  | EmptyString => EmptyString
  | String c s' => if Ascii.eqb c "T" then EmptyString else String c (before_T s')
  end.

(** [if d: d = d.split('T')[0]]: [None] and the empty string are falsy and
    stay as they are. *)
Definition clean_date (d : option string) : option string :=
  match d with
  | None => None
  | Some EmptyString => Some EmptyString
  | Some s => Some (before_T s)
  end.

(** The dictionary appended to [results] by data_collector.py. *)
Record Marriage : Type := mkMarriage {
  Celebrity : option string;
  Spouse : option string;
  Start_Date : option string;
  End_Date : option string;
  End_Cause : option string
}.

(** data_collector.py, lines 43-59: the body of the loop. *)
Definition parse_item (it : item) : Marriage :=
  {| Celebrity := get_val it "celebrityLabel";
     Spouse := get_val it "spouseLabel";
     Start_Date := clean_date (get_val it "start");
     End_Date := clean_date (get_val it "end");
     End_Cause := get_val it "endCauseLabel" |}.

(** Lines 41-59. *)
Definition results (bindings : list item) : list Marriage :=
  map parse_item bindings.

End Fetch.

(* ===================================================================== *)
(** ** The specification's reading of the event indicator *)
(* ===================================================================== *)

Module Spec.
Import PyStr Frame.

(** The death / widowhood keywords. *)
Definition death_keywords : list string := ["death"; "widow"].

(** The end-cause text of a row, as the classifiers read it. *)
Definition end_cause_text (r : Row) : string := py_str (End_Cause r).

Definition mentions_death (text : string) : Prop :=
  exists kw, In kw death_keywords /\ contains_ci kw text.

(** The event indicator in the words of the specification: 0 without an
    end date, else 0 when the end cause names a death or widowhood, else
    1. *)
Inductive event_indicator (r : Row) : Z -> Prop :=
| event_ongoing :
    End_Date r = None -> event_indicator r 0
| event_death :
    End_Date r <> None -> mentions_death (end_cause_text r) ->
    event_indicator r 0
| event_divorce :
    End_Date r <> None -> ~ mentions_death (end_cause_text r) ->
    event_indicator r 1.

End Spec.

(* ===================================================================== *)
(** ** Sample rows *)
(* ===================================================================== *)

Module Samples.
Import PyStr Frame.

(** Midnight of the given day number. *)
Definition day (n : Z) : Timestamp := n * NS_PER_DAY.

Definition blank : Row :=
  {| Celebrity := NaN; Spouse := NaN; Start_Date := None; End_Date := None;
     End_Cause := NaN; Celebrity_Birth := None; Spouse_Birth := None;
     Celebrity_Fame_Score := None; Spouse_Fame_Score := None;
     Career_Start_Year := None; Children_Count := None;
     Awards_Count := None |}.

(** A marriage from day [s] to day [e] with the given end cause. *)
Definition ended_row (s e : Z) (cause : cell) : Row :=
  {| Celebrity := Str "A"; Spouse := Str "B";
     Start_Date := Some (day s); End_Date := Some (day e);
     End_Cause := cause; Celebrity_Birth := None; Spouse_Birth := None;
     Celebrity_Fame_Score := None; Spouse_Fame_Score := None;
     Career_Start_Year := None; Children_Count := None;
     Awards_Count := None |}.

(** A marriage that ended with the cause "widowhood". *)
Definition widowed_row : Row := ended_row 0 3653 (Str "widowhood").

(** A marriage that ended, with no end cause recorded. *)
Definition no_cause_row : Row := ended_row 0 1827 NaN.

(** The processing time: noon of day 20000. *)
Definition today : Timestamp := day 20000 + 43200000000000.

(** A marriage of 1827 days that ended in a divorce. *)
Definition divorce_row : Row := ended_row 0 1827 (Str "divorce").

(** A row whose start date is missing or unparseable. *)
Definition no_start_row : Row :=
  {| Celebrity := Str "A"; Spouse := Str "B";
     Start_Date := None; End_Date := Some (day 10);
     End_Cause := Str "divorce"; Celebrity_Birth := None; Spouse_Birth := None;
     Celebrity_Fame_Score := None; Spouse_Fame_Score := None;
     Career_Start_Year := None; Children_Count := None;
     Awards_Count := None |}.

(** A row whose end date precedes its start date. *)
Definition backwards_row : Row := ended_row 10 0 (Str "divorce").

(** An ongoing marriage, started on day 14000, between a celebrity born on
    day [cb] and a spouse born on day [sb]. *)
Definition couple_row (cb sb : Z) : Row :=
  {| Celebrity := Str "A"; Spouse := Str "B";
     Start_Date := Some (day 14000); End_Date := None;
     End_Cause := NaN;
     Celebrity_Birth := Some (day cb); Spouse_Birth := Some (day sb);
     Celebrity_Fame_Score := Some 80%Q; Spouse_Fame_Score := Some 3%Q;
     Career_Start_Year := None; Children_Count := None;
     Awards_Count := None |}.


(** An ongoing marriage, started on day 14000, of a celebrity born on day
    [b] whose career started on day [c] and who has [n] children. *)
Definition career_row (b c n : Z) : Row :=
  {| Celebrity := Str "A"; Spouse := Str "B";
     Start_Date := Some (day 14000); End_Date := None;
     End_Cause := NaN;
     Celebrity_Birth := Some (day b); Spouse_Birth := None;
     Celebrity_Fame_Score := None; Spouse_Fame_Score := None;
     Career_Start_Year := Some (day c); Children_Count := Some n;
     Awards_Count := Some 0 |}.

(** A career that started 29220 days after birth: at the age of 80. *)
Definition debut_at_80_row : Row := career_row (-20000) 9220 0.

(** A career that started 3653 days after birth: at the age of 10. *)
Definition debut_at_10_row : Row := career_row 0 3653 2.

(** A record with 21 children. *)
Definition children_21_row : Row := career_row 0 9000 21.

(** An ongoing marriage that started on 1 January 1735, day -85832. *)
Definition old_ongoing_row : Row :=
  {| Celebrity := Str "A"; Spouse := Str "B";
     Start_Date := Some (day (-85832)); End_Date := None;
     End_Cause := NaN; Celebrity_Birth := None; Spouse_Birth := None;
     Celebrity_Fame_Score := None; Spouse_Fame_Score := None;
     Career_Start_Year := None; Children_Count := None;
     Awards_Count := None |}.

(** A later processing time: day 21200. *)
Definition later : Timestamp := day 21200.

(** A marriage that ended after 12 hours. *)
Definition half_day_row : Row :=
  {| Celebrity := Str "A"; Spouse := Str "B";
     Start_Date := Some (day 100);
     End_Date := Some (day 100 + 43200000000000);
     End_Cause := Str "divorce"; Celebrity_Birth := None; Spouse_Birth := None;
     Celebrity_Fame_Score := None; Spouse_Fame_Score := None;
     Career_Start_Year := None; Children_Count := None;
     Awards_Count := None |}.

(** Births 2000 days apart: an age gap of about five and a half years. *)
Definition age_gap_5_row : Row := couple_row 0 2000.

(** Two passes of the simulation loop: a draw of 0.5 with the choice 0 and
    a draw of 5 with the choice 1. *)
Definition sample_draws : list (Q * Z) := [((1 # 2)%Q, 0); (5%Q, 1)].

(** One item of a response: a marriage with a start and no end. *)
Definition sample_item : Fetch.item :=
  [("celebrityLabel", [("type", "literal"); ("value", "A")]);
   ("start", [("datatype", "dateTime"); ("type", "literal");
              ("value", "2010-01-01T00:00:00Z")])].

End Samples.

(* ===================================================================== *)
(** ** Strings: substring search and case folding *)
(* ===================================================================== *)

Section StringFacts.
Import PyStr.

Lemma append_assoc' (a b c : string) : (a ++ b) ++ c = a ++ b ++ c.
Proof. induction a as [|x a IH]; simpl; [reflexivity | now rewrite IH]. Qed.

Lemma lower_app (a b : string) : lower (a ++ b) = lower a ++ lower b.
Proof. induction a as [|x a IH]; simpl; [reflexivity | now rewrite IH]. Qed.

(** A split of the folded text comes from a split of the text. *)
Lemma lower_split (a b t : string) :
  lower t = a ++ b ->
  exists ta tb, t = ta ++ tb /\ lower ta = a /\ lower tb = b.
Proof.
  revert t. induction a as [|x a IH]; intros t H.
  - exists EmptyString, t. simpl in *. auto.
  - destruct t as [|c t]; simpl in H; [discriminate|].
    injection H as Hc Ht.
    destruct (IH _ Ht) as (ta & tb & -> & Ha & Hb).
    exists (String c ta), tb. simpl. now rewrite Hc, Ha.
Qed.

Lemma startswith_spec (n h : string) :
  startswith n h = true <-> exists post, h = n ++ post.
Proof.
  revert h. induction n as [|a n IH]; intros h; simpl.
  - split; [intros _; now exists h | reflexivity].
  - destruct h as [|b h].
    + split; [discriminate | intros [p Hp]; discriminate].
    + rewrite andb_true_iff, Ascii.eqb_eq, IH. split.
      * intros [-> [p ->]]. now exists p.
      * intros [p Hp]. injection Hp as -> ->. split; [reflexivity | now exists p].
Qed.

Lemma py_in_spec (n h : string) :
  py_in n h = true <-> exists pre post, h = pre ++ n ++ post.
Proof.
  induction h as [|b h IH]; simpl py_in; rewrite orb_true_iff, startswith_spec.
  - split.
    + intros [[p Hp] | F]; [|discriminate]. now exists EmptyString, p.
    + intros (pre & post & H). left. destruct pre; [now exists post | discriminate].
  - rewrite IH. split.
    + intros [[p Hp] | (pre & post & ->)].
      * now exists EmptyString, p.
      * now exists (String b pre), post.
    + intros (pre & post & H). destruct pre as [|c pre]; simpl in H.
      * left. now exists post.
      * right. injection H as _ ->. now exists pre, post.
Qed.

(** Searching the folded keyword in the folded text is the
    case-insensitive substring match. *)
Lemma py_in_lower_ci (kw text : string) :
  py_in (lower kw) (lower text) = true <-> contains_ci kw text.
Proof.
  rewrite py_in_spec. split.
  - intros (pre & post & H).
    destruct (lower_split _ _ _ H) as (tp & rest & -> & _ & Hrest).
    destruct (lower_split _ _ _ Hrest) as (tm & tq & -> & Hm & _).
    now exists tp, tm, tq.
  - intros (pre & mid & post & -> & Hm).
    exists (lower pre), (lower post). now rewrite !lower_app, Hm.
Qed.

End StringFacts.

(* ===================================================================== *)
(** ** The event indicator *)
(* ===================================================================== *)

Section EventIndicator.
Import PyStr Frame Spec.

Lemma mentions_death_iff (text : string) :
  mentions_death text <->
  py_in "death" (lower text) || py_in "widow" (lower text) = true.
Proof.
  unfold mentions_death, death_keywords. rewrite orb_true_iff.
  change "death" with (lower "death") at 2.
  change "widow" with (lower "widow") at 2.
  rewrite !py_in_lower_ci. split.
  - intros (kw & [<- | [<- | []]] & H); auto.
  - intros [H | H]; [exists "death" | exists "widow"]; simpl; auto.
Qed.

(** The classifier of analysis.py against the specification's wording. *)
Lemma analysis_event_indicator (r : Row) :
  event_indicator r (Analysis.get_event_status r).
Proof.
  unfold Analysis.get_event_status.
  destruct (End_Date r) as [e|] eqn:He; simpl.
  - destruct (py_in "death" (lower (py_str (End_Cause r)))
              || py_in "widow" (lower (py_str (End_Cause r)))) eqn:Hk.
    + apply event_death; [congruence|]. now apply mentions_death_iff.
    + apply event_divorce; [congruence|].
      intros Hm. apply mentions_death_iff in Hm.
      unfold end_cause_text in Hm. congruence.
  - now apply event_ongoing.
Qed.

(** The two scripts that search both keywords define the same function. *)
Lemma step2_same_as_analysis (r : Row) :
  Step2.get_event_status r = Analysis.get_event_status r.
Proof. reflexivity. Qed.

(** The scripts that search "death" alone define the same function. *)
Lemma step5_same_as_step3 (r : Row) :
  Step5.get_status r = Step3.get_status r.
Proof. reflexivity. Qed.

(** Where the scripts can differ: only on an end cause that names a
    widowhood and no death. *)
Lemma step3_agrees_unless_widow (r : Row) :
  ~ contains_ci "widow" (end_cause_text r) ->
  Step3.get_status r = Step2.get_event_status r.
Proof.
  intros Hw. unfold Step3.get_status, Step2.get_event_status.
  destruct (isnull (End_Date r)); [reflexivity|]. simpl.
  destruct (py_in "widow" (lower (py_str (End_Cause r)))) eqn:Hk.
  - exfalso. apply Hw. now apply (py_in_lower_ci "widow").
  - now rewrite orb_false_r.
Qed.

(** C1. For every record the event indicator of analysis.py and of
    step2_analysis.py is the one the specification describes: 0 when the
    end date is missing; otherwise 0 when the end-cause text contains
    "death" or "widow" as a case-insensitive substring; otherwise 1. *)
Theorem event_classification_as_specified (r : Row) :
  event_indicator r (Analysis.get_event_status r) /\
  event_indicator r (Step2.get_event_status r).
Proof.
  split; [|rewrite step2_same_as_analysis]; apply analysis_event_indicator.
Qed.

(** C2. The classifiers are not extensionally equal: on a marriage that
    ended with the cause "widowhood" the classifier of step2_analysis.py
    (and of analysis.py) returns 0, the classifiers of
    step3_comparative_analysis.py and step5_psycho_economic_analysis.py
    return 1. *)
Theorem classifiers_differ_on_widowhood :
  Step2.get_event_status Samples.widowed_row = 0 /\
  Step3.get_status Samples.widowed_row = 1 /\
  Step5.get_status Samples.widowed_row = 1.
Proof. repeat split; reflexivity. Qed.

(** C10. A record with an end date and no end cause is an observed event:
    the missing cause is stringified to "nan", which holds no keyword, so
    the classifiers of analysis.py and step3_comparative_analysis.py
    return 1. *)
Theorem missing_cause_is_event (r : Row) :
  End_Date r <> None ->
  End_Cause r = NaN ->
  Analysis.get_event_status r = 1 /\ Step3.get_status r = 1.
Proof.
  intros Hd Hc. unfold Analysis.get_event_status, Step3.get_status.
  rewrite Hc. destruct (End_Date r); [|congruence]. split; reflexivity.
Qed.

Lemma missing_cause_is_event_witness :
  Analysis.get_event_status Samples.no_cause_row = 1 /\
  Step3.get_status Samples.no_cause_row = 1.
Proof.
  apply (missing_cause_is_event Samples.no_cause_row).
  - simpl. discriminate.
  - reflexivity.
Defined.

End EventIndicator.

(* ===================================================================== *)
(** ** Comparisons on cells *)
(* ===================================================================== *)

Section CellFacts.
Import Frame.

Lemma Qlt_bool_iff (x y : Q) : Qlt_bool x y = true <-> (x < y)%Q.
Proof.
  unfold Qlt_bool. rewrite negb_true_iff. split.
  - intros H. apply Qnot_le_lt. intros Hle.
    apply Qle_bool_iff in Hle. congruence.
  - intros H. destruct (Qle_bool y x) eqn:E; [|reflexivity].
    apply Qle_bool_iff in E. exfalso. now apply (Qlt_not_le x y).
Qed.

Lemma gt_cell_iff (x : option Q) (c : Q) :
  gt_cell x c = true <-> exists a, x = Some a /\ (c < a)%Q.
Proof.
  destruct x as [a|]; simpl.
  - rewrite Qlt_bool_iff. split; [intros H; now exists a | now intros (b & [= <-] & H)].
  - split; [discriminate | now intros (b & [=] & _)].
Qed.

Lemma lt_cell_iff (x : option Q) (c : Q) :
  lt_cell x c = true <-> exists a, x = Some a /\ (a < c)%Q.
Proof.
  destruct x as [a|]; simpl.
  - rewrite Qlt_bool_iff. split; [intros H; now exists a | now intros (b & [= <-] & H)].
  - split; [discriminate | now intros (b & [=] & _)].
Qed.

Lemma gtZ_cell_iff (x : option Z) (c : Z) :
  gtZ_cell x c = true <-> exists a, x = Some a /\ c < a.
Proof.
  destruct x as [a|]; simpl.
  - rewrite Z.ltb_lt. split; [intros H; now exists a | now intros (b & [= <-] & H)].
  - split; [discriminate | now intros (b & [=] & _)].
Qed.

Lemma years_of_days_pos (d : Z) : (0 < years_of_days d)%Q <-> 0 < d.
Proof.
  unfold years_of_days, DAYS_PER_YEAR, Qdiv, Qlt. simpl. lia.
Qed.

Lemma years_of_days_eq (d : Z) : (years_of_days d == inject_Z d / (36525 # 100))%Q.
Proof. unfold years_of_days, DAYS_PER_YEAR, Qdiv, Qeq. simpl. lia. Qed.

End CellFacts.

(* ===================================================================== *)
(** ** Normalization *)
(* ===================================================================== *)

Section Normalization.
Import PyStr Frame.

Lemma step2_df_same_as_analysis today raw :
  Step2.df today raw = Analysis.df today raw.
Proof. reflexivity. Qed.

(** What analysis.py keeps: exactly the rows with a start date and a
    positive number of days. *)
Lemma analysis_df_iff today raw r :
  In r (Analysis.df today raw) <->
  In r raw /\ exists s d,
    Start_Date r = Some s /\ Duration_Days today r = Some d /\ 0 < d.
Proof.
  unfold Analysis.df, dropna_Start_Date. rewrite !filter_In, gtZ_cell_iff.
  split.
  - intros [[Hin Hs] (d & Hd & Hpos)].
    split; [assumption|].
    destruct (Start_Date r) as [s|] eqn:E; [|discriminate].
    now exists s, d.
  - intros [Hin (s & d & Hs & Hd & Hpos)].
    repeat split; [assumption | now rewrite Hs | now exists d].
Qed.

(** The duration columns of a row analysis.py retains. *)
Lemma cleaned_row_durations today raw r :
  In r (Analysis.df today raw) ->
  exists s d y,
    Start_Date r = Some s /\
    Duration_Days today r = Some d /\ 0 < d /\
    Duration_Years today r = Some y /\
    (y == inject_Z d / (36525 # 100))%Q /\ (0 < y)%Q.
Proof.
  intros H. apply analysis_df_iff in H as [_ (s & d & Hs & Hd & Hpos)].
  exists s, d, (years_of_days d). unfold Duration_Years. rewrite Hd.
  repeat split; try assumption.
  - apply years_of_days_eq.
  - now apply years_of_days_pos.
Qed.

(** C3, as amended. Every record analysis.py (and step2_analysis.py, which
    cleans the same way) retains has a start date, a day count
    [duration_days > 0] and [duration_years = duration_days / 365.25]; a row
    without a start date is therefore never retained there. *)
Theorem retained_records_have_positive_duration today raw r :
  In r (Analysis.df today raw) ->
  (exists s d y,
    Start_Date r = Some s /\
    Duration_Days today r = Some d /\ 0 < d /\
    Duration_Years today r = Some y /\
    (y == inject_Z d / (36525 # 100))%Q) /\
  Start_Date r <> None /\
  In r (Step2.df today raw).
Proof.
  intros H. split; [|split].
  - destruct (cleaned_row_durations today raw r H)
      as (s & d & y & Hs & Hd & Hpos & Hy & Heq & _).
    now exists s, d, y.
  - apply analysis_df_iff in H as [_ (s & d & Hs & _)]. congruence.
  - exact H.
Qed.

Lemma retained_records_have_positive_duration_witness :
  (exists s d y,
    Start_Date Samples.divorce_row = Some s /\
    Duration_Days Samples.today Samples.divorce_row = Some d /\ 0 < d /\
    Duration_Years Samples.today Samples.divorce_row = Some y /\
    (y == inject_Z d / (36525 # 100))%Q) /\
  Start_Date Samples.divorce_row <> None /\
  In Samples.divorce_row
     (Step2.df Samples.today [Samples.no_start_row; Samples.divorce_row]).
Proof.
  apply (retained_records_have_positive_duration
           Samples.today [Samples.no_start_row; Samples.divorce_row]).
  vm_compute. left. reflexivity.
Defined.

(** Wherever a day count exists, also in data_check.py, the years are the
    days divided by 365.25. *)
Lemma duration_years_of_days today r d :
  Duration_Days today r = Some d ->
  exists y, Duration_Years today r = Some y /\
            (y == inject_Z d / (36525 # 100))%Q.
Proof.
  intros Hd. exists (years_of_days d). unfold Duration_Years. rewrite Hd.
  split; [reflexivity | apply years_of_days_eq].
Qed.

(** A row without a start date never reaches the statistics of
    analysis.py. *)
Lemma missing_start_excluded today raw r :
  Start_Date r = None -> ~ In r (Analysis.df today raw).
Proof.
  intros Hs Hin. apply analysis_df_iff in Hin as [_ (s & d & Hs' & _)].
  congruence.
Qed.

(** C3, the claim as stated fails on data_check.py: the script filters
    nothing, so a row without a start date and a row with a negative
    duration are both in the table its report is computed from. *)
Lemma data_check_retains_invalid_rows :
  ~ (forall today raw r,
        In r (DataCheck.df raw) ->
        Start_Date r <> None /\
        exists d, Duration_Days today r = Some d /\ 0 < d).
Proof.
  intros H.
  destruct (H Samples.today [Samples.no_start_row; Samples.backwards_row]
              Samples.no_start_row) as [Hs _].
  - simpl. left. reflexivity.
  - apply Hs. reflexivity.
Qed.

(** The report of data_check.py on these two rows: both are counted, and
    the median duration of the ended marriages is negative. *)
Lemma data_check_report_on_invalid_rows :
  let raw := [Samples.no_start_row; Samples.backwards_row] in
  DataCheck.Total_Records raw = 2%nat /\
  Duration_Days Samples.today Samples.backwards_row = Some (-10) /\
  exists m, DataCheck.avg_duration Samples.today raw = Some m /\ (m < 0)%Q.
Proof.
  simpl. repeat split.
  eexists. split; [vm_compute; reflexivity|]. reflexivity.
Qed.

End Normalization.

(* ===================================================================== *)
(** ** The training set of the logistic regression *)
(* ===================================================================== *)

Section TrainingSet.
Import PyStr Frame.

Lemma event_divorce_cases (r : Row) :
  Step2.Event_Divorce r = 0 \/ Step2.Event_Divorce r = 1.
Proof.
  unfold Step2.Event_Divorce, Step2.get_event_status.
  destruct (isnull (End_Date r)); [now left|].
  simpl. destruct (_ || _); [now left | now right].
Qed.

(** The training set is a part of the cleaned table. *)
Lemma model_data_in_df today raw r :
  In r (Step2.model_data today raw) -> In r (Step2.df today raw).
Proof. unfold Step2.model_data. rewrite filter_In. tauto. Qed.

(** C6. Of the cleaned table, the training set holds exactly the rows that
    are an observed event or a censored observation lasting strictly more
    than 5 years, so a row censored at or before 5 years is left out; the
    target of a row is 1 exactly when its duration is at most 5 years, and
    0 otherwise. *)
Theorem training_set_selection today raw r :
  In r (Step2.df today raw) ->
  exists y,
    Duration_Years today r = Some y /\
    (In r (Step2.model_data today raw) <->
       Step2.Event_Divorce r = 1 \/ (Step2.Event_Divorce r = 0 /\ (5 < y)%Q)) /\
    (Step2.Event_Divorce r = 0 -> (y <= 5)%Q ->
       ~ In r (Step2.model_data today raw)) /\
    ((y <= 5)%Q -> Step2.Target_Short_Marriage today r = 1) /\
    ((5 < y)%Q -> Step2.Target_Short_Marriage today r = 0).
Proof.
  intros Hin.
  destruct (cleaned_row_durations today raw r Hin)
    as (s & d & y & _ & _ & _ & Hy & _ & _).
  exists y. split; [assumption|].
  assert (Hsel : In r (Step2.model_data today raw) <->
                 Step2.Event_Divorce r = 1 \/
                 (Step2.Event_Divorce r = 0 /\ (5 < y)%Q)).
  { unfold Step2.model_data. rewrite filter_In, orb_true_iff, Z.eqb_eq.
    rewrite Hy. cbn [gt_cell]. rewrite Qlt_bool_iff. split.
    - intros [_ [He | Hd]]; [now left|].
      destruct (event_divorce_cases r); [right | left]; auto.
    - intros [He | [_ Hd]]; split; auto. }
  split; [exact Hsel|]. split; [|split].
  - intros He Hle Hm. apply Hsel in Hm as [H1 | [_ Hlt]]; [congruence|].
    now apply (Qlt_not_le 5 y).
  - intros Hle. unfold Step2.Target_Short_Marriage. rewrite Hy. cbn [le_cell].
    apply Qle_bool_iff in Hle. now rewrite Hle.
  - intros Hlt. unfold Step2.Target_Short_Marriage. rewrite Hy. cbn [le_cell].
    destruct (Qle_bool y 5) eqn:E; [|reflexivity].
    apply Qle_bool_iff in E. exfalso. now apply (Qlt_not_le 5 y).
Qed.

Lemma training_set_selection_witness :
  exists y,
    Duration_Years Samples.today Samples.divorce_row = Some y /\
    (In Samples.divorce_row
        (Step2.model_data Samples.today [Samples.divorce_row; Samples.no_cause_row]) <->
       Step2.Event_Divorce Samples.divorce_row = 1 \/
       (Step2.Event_Divorce Samples.divorce_row = 0 /\ (5 < y)%Q)) /\
    (Step2.Event_Divorce Samples.divorce_row = 0 -> (y <= 5)%Q ->
       ~ In Samples.divorce_row
           (Step2.model_data Samples.today [Samples.divorce_row; Samples.no_cause_row])) /\
    ((y <= 5)%Q -> Step2.Target_Short_Marriage Samples.today Samples.divorce_row = 1) /\
    ((5 < y)%Q -> Step2.Target_Short_Marriage Samples.today Samples.divorce_row = 0).
Proof.
  apply (training_set_selection
           Samples.today [Samples.divorce_row; Samples.no_cause_row]).
  vm_compute. left. reflexivity.
Defined.

End TrainingSet.

(* ===================================================================== *)
(** ** Child stars and children buckets *)
(* ===================================================================== *)

Section ChildStar.
Import PyStr Frame.

Lemma step5_normalized_dates today raw r :
  In r (Step5.normalized today raw) ->
  exists c b, Career_Start_Year r = Some c /\ Celebrity_Birth r = Some b.
Proof.
  unfold Step5.normalized. rewrite !filter_In, !andb_true_iff.
  intros [[_ [[_ Hb] Hc]] _].
  destruct (Career_Start_Year r) as [c|]; [|discriminate].
  destruct (Celebrity_Birth r) as [b|]; [|discriminate].
  now exists c, b.
Qed.

(** C7, as amended. For every normalized record of the child-star script,
    the age at career start is the whole number of days from birth to
    career start divided by 365.25; the record is kept exactly when that
    age is strictly between 0 and 80, hence excluded exactly when the age
    is at most 0 or at least 80; and it is a child star exactly when the
    age is below 16. *)
Theorem child_star_rule today raw r :
  In r (Step5.normalized today raw) ->
  exists c b a,
    Career_Start_Year r = Some c /\ Celebrity_Birth r = Some b /\
    Step5.Age_At_Debut r = Some a /\
    (a == inject_Z (td_days (c - b)) / (36525 # 100))%Q /\
    (In r (Step5.df today raw) <-> (0 < a)%Q /\ (a < 80)%Q) /\
    (~ In r (Step5.df today raw) <-> (a <= 0)%Q \/ (80 <= a)%Q) /\
    (Step5.Is_Child_Star_Binary r = 1 <-> (a < 16)%Q) /\
    (Step5.Is_Child_Star r = "Child Star" <-> (a < 16)%Q).
Proof.
  intros Hin. destruct (step5_normalized_dates _ _ _ Hin) as (c & b & Hc & Hb).
  exists c, b, (years_of_days (td_days (c - b))).
  assert (Ha : Step5.Age_At_Debut r = Some (years_of_days (td_days (c - b)))).
  { unfold Step5.Age_At_Debut. now rewrite Hc, Hb. }
  set (a := years_of_days (td_days (c - b))) in *.
  assert (Hkeep : In r (Step5.df today raw) <-> (0 < a)%Q /\ (a < 80)%Q).
  { unfold Step5.df, Step5.valid_age.
    rewrite filter_In, andb_true_iff, Ha. cbn [gt_cell lt_cell].
    rewrite !Qlt_bool_iff. tauto. }
  assert (H16 : Qlt_bool a 16 = true <-> (a < 16)%Q) by apply Qlt_bool_iff.
  split; [assumption|]. split; [assumption|]. split; [assumption|].
  split; [apply years_of_days_eq|]. split; [exact Hkeep|].
  split; [|split].
  - split.
    + intros Hn. destruct (Qlt_le_dec 0 a) as [H0|H0]; [|now left].
      destruct (Qlt_le_dec a 80) as [H8|H8]; [|now right].
      exfalso. apply Hn, Hkeep. now split.
    + intros [H0 | H8] Hk; apply Hkeep in Hk as [Hk0 Hk8].
      * now apply (Qlt_not_le 0 a).
      * now apply (Qlt_not_le a 80).
  - unfold Step5.Is_Child_Star_Binary. rewrite Ha. cbn [lt_cell].
    rewrite <- H16. destruct (Qlt_bool a 16); split; congruence.
  - unfold Step5.Is_Child_Star. rewrite Ha. cbn [lt_cell].
    rewrite <- H16. destruct (Qlt_bool a 16); split; congruence.
Qed.

Lemma child_star_rule_witness :
  exists c b a,
    Career_Start_Year Samples.debut_at_10_row = Some c /\
    Celebrity_Birth Samples.debut_at_10_row = Some b /\
    Step5.Age_At_Debut Samples.debut_at_10_row = Some a /\
    (a == inject_Z (td_days (c - b)) / (36525 # 100))%Q /\
    (In Samples.debut_at_10_row
        (Step5.df Samples.today [Samples.debut_at_10_row]) <->
       (0 < a)%Q /\ (a < 80)%Q) /\
    (~ In Samples.debut_at_10_row
          (Step5.df Samples.today [Samples.debut_at_10_row]) <->
       (a <= 0)%Q \/ (80 <= a)%Q) /\
    (Step5.Is_Child_Star_Binary Samples.debut_at_10_row = 1 <-> (a < 16)%Q) /\
    (Step5.Is_Child_Star Samples.debut_at_10_row = "Child Star" <-> (a < 16)%Q).
Proof.
  apply (child_star_rule Samples.today [Samples.debut_at_10_row]).
  vm_compute. left. reflexivity.
Defined.

(** C7, the claim as stated fails: a record whose career started at the
    age of exactly 80 is neither negative nor above 80, and is excluded. *)
Lemma debut_at_80_is_excluded :
  ~ (forall today raw r a,
        In r (Step5.normalized today raw) ->
        Step5.Age_At_Debut r = Some a ->
        (~ In r (Step5.df today raw) <-> (a < 0)%Q \/ (80 < a)%Q)).
Proof.
  intros H.
  assert (Hin : In Samples.debut_at_80_row
                   (Step5.normalized Samples.today [Samples.debut_at_80_row])).
  { vm_compute. left. reflexivity. }
  destruct (H _ _ _ _ Hin eq_refl) as [Hex _].
  destruct Hex as [Hneg | Hgt].
  - vm_compute. tauto.
  - vm_compute in Hneg. discriminate.
  - vm_compute in Hgt. discriminate.
Qed.

End ChildStar.

Section ChildrenBucket.
Import PyStr Frame.

Lemma Qlt_bool_inject (a b : Z) : Qlt_bool (inject_Z a) (inject_Z b) = (a <? b).
Proof.
  destruct (a <? b) eqn:E.
  - apply Qlt_bool_iff. rewrite <- Zlt_Qlt. now apply Z.ltb_lt.
  - destruct (Qlt_bool (inject_Z a) (inject_Z b)) eqn:F; [|reflexivity].
    apply Qlt_bool_iff in F. rewrite <- Zlt_Qlt in F. apply Z.ltb_lt in F.
    congruence.
Qed.

Lemma Qle_bool_inject (a b : Z) : Qle_bool (inject_Z a) (inject_Z b) = (a <=? b).
Proof.
  destruct (a <=? b) eqn:E.
  - apply Qle_bool_iff. rewrite <- Zle_Qle. now apply Z.leb_le.
  - destruct (Qle_bool (inject_Z a) (inject_Z b)) eqn:F; [|reflexivity].
    apply Qle_bool_iff in F. rewrite <- Zle_Qle in F. apply Z.leb_le in F.
    congruence.
Qed.

(** The bucket of a children count, edge by edge of
    [bins=[-1, 0, 2, 20]]. *)
Lemma children_category_cases (r : Row) (n : Z) :
  Children_Count r = Some n ->
  (n = 0 -> Step5.Children_Category r = Some "No Kids") /\
  (1 <= n <= 2 -> Step5.Children_Category r = Some "1-2 Kids") /\
  (3 <= n <= 20 -> Step5.Children_Category r = Some "3+ Kids") /\
  (20 < n -> Step5.Children_Category r = None) /\
  (n < 0 -> Step5.Children_Category r = None).
Proof.
  intros Hn. unfold Step5.Children_Category. rewrite Hn.
  cbn [Stats.cut].
  change (-1)%Q with (inject_Z (-1)). change 0%Q with (inject_Z 0).
  change 2%Q with (inject_Z 2). change 20%Q with (inject_Z 20).
  rewrite !Qlt_bool_inject, !Qle_bool_inject.
  repeat split; intros H;
    repeat match goal with
           | |- context [?a <? ?b] => destruct (Z.ltb_spec a b); try lia
           | |- context [?a <=? ?b] => destruct (Z.leb_spec a b); try lia
           end; reflexivity.
Qed.

(** C8. The binning is not total on the non-negative counts: a count of
    21 children is above the last edge of [bins=[-1, 0, 2, 20]], so the
    record gets no category (NaN) instead of "3+ Kids". *)
Theorem children_21_has_no_category :
  Children_Count Samples.children_21_row = Some 21 /\
  Step5.Children_Category Samples.children_21_row = None.
Proof. split; reflexivity. Qed.

End ChildrenBucket.

(* ===================================================================== *)
(** ** Age-gap outliers *)
(* ===================================================================== *)

Section AgeGapOutliers.
Import PyStr Frame.


(** What analysis.py keeps in [df_clean]: the cleaned rows whose age gap is
    known and strictly below 60 years. *)
Lemma df_clean_iff today raw r :
  In r (Analysis.df_clean today raw) <->
  In r (Analysis.df today raw) /\
  exists g, Analysis.Age_Gap r = Some g /\ (g < 60)%Q.
Proof.
  unfold Analysis.df_clean. rewrite !filter_In, lt_cell_iff. split.
  - intros [[Hin _] Hg]. now split.
  - intros [Hin (g & Hg & Hlt)]. repeat split; auto.
    + now rewrite Hg.
    + now exists g.
Qed.




End AgeGapOutliers.

(* ===================================================================== *)
(** ** The Kaplan-Meier curve *)
(* ===================================================================== *)

Section KaplanMeierCurve.
Import Frame KaplanMeier.

Lemma filter_length_le {A} (p q : A -> bool) (l : list A) :
  (forall x, p x = true -> q x = true) ->
  (List.length (filter p l) <= List.length (filter q l))%nat.
Proof.
  intros Hpq. induction l as [|x l IH]; simpl; [lia|].
  destruct (p x) eqn:Hp.
  - rewrite (Hpq x Hp). simpl. lia.
  - destruct (q x); simpl; lia.
Qed.

(** Never more events at [t] than observations at risk at [t]. *)
Lemma d_le_n (obs : list ObservationWindow) (t : Q) :
  (d_ obs t <= n_ obs t)%nat.
Proof.
  apply filter_length_le. intros o H.
  apply andb_true_iff in H as [_ H]. apply Qeq_bool_iff in H.
  apply Qle_bool_iff. rewrite H. apply Qle_refl.
Qed.

(** Every factor of the product is a probability. *)
Lemma factor_bounds (obs : list ObservationWindow) (t : Q) :
  (0 <= factor obs t <= 1)%Q.
Proof.
  unfold factor. pose proof (d_le_n obs t) as Hdn.
  set (d := d_ obs t) in *. set (n := n_ obs t) in *.
  assert (Hr : (0 <= inject_Z (Z.of_nat d) / inject_Z (Z.of_nat n) <= 1)%Q).
  { destruct n as [|n'].
    - assert (d = 0)%nat as -> by lia. simpl. split; discriminate.
    - assert (Hn : (0 < inject_Z (Z.of_nat (S n')))%Q).
      { change 0%Q with (inject_Z 0). rewrite <- Zlt_Qlt. lia. }
      split.
      + apply Qle_shift_div_l; [exact Hn|]. rewrite Qmult_0_l.
        change 0%Q with (inject_Z 0). rewrite <- Zle_Qle. lia.
      + apply Qle_shift_div_r; [exact Hn|]. rewrite Qmult_1_l.
        rewrite <- Zle_Qle. lia. }
  split; lra.
Qed.

(** The running product stays between 0 and its start value. *)
Lemma running_product_bounds obs (ts : list Q) (a : Q) :
  (0 <= a)%Q ->
  (0 <= fold_left (fun s u => s * factor obs u) ts a <= a)%Q.
Proof.
  revert a. induction ts as [|u ts IH]; intros a Ha; simpl.
  - split; [assumption | apply Qle_refl].
  - pose proof (factor_bounds obs u) as [Hf0 Hf1].
    assert (H0 : (0 <= a * factor obs u)%Q) by nra.
    destruct (IH _ H0) as [I0 I1]. split; [assumption|].
    apply Qle_trans with (a * factor obs u)%Q; [assumption | nra].
Qed.

(** Taking more event times into account can only lower the product. *)
Lemma running_product_antitone obs (p q : Q -> bool) (ts : list Q) :
  (forall u, p u = true -> q u = true) ->
  forall a b, (0 <= a)%Q -> (a <= b)%Q ->
  (fold_left (fun s u => s * factor obs u) (filter q ts) a <=
   fold_left (fun s u => s * factor obs u) (filter p ts) b)%Q.
Proof.
  intros Hpq. induction ts as [|u ts IH]; intros a b Ha Hab; simpl.
  - assumption.
  - pose proof (factor_bounds obs u) as [Hf0 Hf1].
    destruct (p u) eqn:Hp.
    + rewrite (Hpq u Hp). simpl. apply IH; nra.
    + destruct (q u); simpl; apply IH; nra.
Qed.

Lemma insert_distinct_In (x u : Q) (l : list Q) :
  In u (insert_distinct x l) -> u = x \/ In u l.
Proof.
  induction l as [|y l IH]; simpl.
  - intros [<- | []]. now left.
  - destruct (Qeq_bool x y); [now right|].
    destruct (Qle_bool x y); simpl.
    + intros [<- | H]; [now left | now right].
    + intros [<- | H]; [right; now left|].
      destruct (IH H); [now left | right; now right].
Qed.

(** An event time is the duration of some observed event. *)
Lemma event_times_In (obs : list ObservationWindow) (u : Q) :
  In u (event_times obs) ->
  exists o, In o obs /\ event_observed o = true /\ duration_in_years o = u.
Proof.
  unfold event_times. induction obs as [|o obs IH]; simpl; [tauto|].
  destruct (event_observed o) eqn:He; simpl; [|intros H].
  - intros H. apply insert_distinct_In in H as [-> | H].
    + exists o. auto.
    + destruct (IH H) as (o' & Hin & He' & Hd). exists o'. auto.
  - destruct (IH H) as (o' & Hin & He' & Hd). exists o'. auto.
Qed.

Lemma filter_none {A} (p : A -> bool) (l : list A) :
  (forall x, In x l -> p x = false) -> filter p l = [].
Proof.
  induction l as [|x l IH]; intros H; simpl; [reflexivity|].
  rewrite (H x (or_introl eq_refl)). apply IH. intros y Hy. apply H. now right.
Qed.

(** The curve never increases, whatever the observations. *)
Lemma survival_antitone obs (t1 t2 : Q) :
  (t1 <= t2)%Q -> (survival_function obs t2 <= survival_function obs t1)%Q.
Proof.
  intros Ht. unfold survival_function.
  apply running_product_antitone; [|discriminate | apply Qle_refl].
  intros u Hu. apply Qle_bool_iff in Hu. apply Qle_bool_iff.
  now apply Qle_trans with t1.
Qed.

(** The curve is a probability at every time, whatever the observations. *)
Lemma survival_bounds obs (t : Q) : (0 <= survival_function obs t <= 1)%Q.
Proof. unfold survival_function. apply running_product_bounds. discriminate. Qed.

(** Without an event at a time up to [t] the curve is still at 1. *)
Lemma survival_before_first_event obs (t : Q) :
  (forall o, In o obs -> event_observed o = true -> (t < duration_in_years o)%Q) ->
  survival_function obs t = 1%Q.
Proof.
  intros H. unfold survival_function. rewrite filter_none; [reflexivity|].
  intros u Hu. destruct (event_times_In _ _ Hu) as (o & Hin & He & <-).
  destruct (Qle_bool (duration_in_years o) t) eqn:E; [|reflexivity].
  apply Qle_bool_iff in E. exfalso.
  apply (Qlt_not_le t (duration_in_years o)); auto.
Qed.

(** C4. For every curve fitted on observation windows, that is on
    (duration, event) pairs with positive durations as the data model has
    them and as every fit call of the scripts receives them, whatever the
    pairs and the stratum: the survival function is non-increasing in
    time, lies in [0, 1] at every time, and the query at time 0 returns
    exactly 1. *)
Theorem kaplan_meier_curve_shape obs (t1 t2 : Q) :
  valid_windows obs ->
  (t1 <= t2)%Q ->
  (survival_function obs t2 <= survival_function obs t1)%Q /\
  (0 <= survival_function obs t1 <= 1)%Q /\
  survival_function obs 0 = 1%Q.
Proof.
  intros Hvalid Ht. split; [now apply survival_antitone|].
  split; [apply survival_bounds|]. apply survival_before_first_event.
  intros o Hin _. now apply Hvalid.
Qed.

Lemma present_In {A} (a : A) (l : list (option A)) :
  In a (Stats.present l) -> In (Some a) l.
Proof.
  induction l as [|[x|] l IH]; simpl; [tauto | | ].
  - intros [-> | H]; [now left | right; auto].
  - intros H. right. auto.
Qed.

(** Every observation step2_analysis.py hands to the fit has a positive
    duration. *)
Lemma km_input_positive today raw o :
  In o (Step2.km_input today raw) -> (0 < duration_in_years o)%Q.
Proof.
  unfold Step2.km_input. intros H. apply present_In in H.
  apply in_map_iff in H as (r & Hr & Hin).
  destruct (cleaned_row_durations today raw r Hin)
    as (s & d & y & _ & _ & _ & Hy & _ & Hpos).
  rewrite Hy in Hr. simpl in Hr. injection Hr as <-. exact Hpos.
Qed.

(** The input of the fit of step2_analysis.py is a valid list of windows. *)
Lemma km_input_valid today raw : valid_windows (Step2.km_input today raw).
Proof. intros o Hin. now apply (km_input_positive today raw). Qed.

(** So the curve step2_analysis.py fits starts at 1. *)
Lemma step2_curve_starts_at_one today raw :
  survival_function (Step2.km_input today raw) 0 = 1%Q.
Proof.
  apply survival_before_first_event. intros o Hin _.
  now apply (km_input_positive today raw).
Qed.

Lemma kaplan_meier_curve_shape_witness :
  (survival_function (Step2.km_input Samples.today [Samples.divorce_row]) 10 <=
   survival_function (Step2.km_input Samples.today [Samples.divorce_row]) 1)%Q /\
  (0 <= survival_function (Step2.km_input Samples.today [Samples.divorce_row]) 1 <= 1)%Q /\
  survival_function (Step2.km_input Samples.today [Samples.divorce_row]) 0 = 1%Q.
Proof.
  apply (kaplan_meier_curve_shape
           (Step2.km_input Samples.today [Samples.divorce_row]) 1 10).
  - intros o Hin. vm_compute in Hin. destruct Hin as [<- | []].
    vm_compute. reflexivity.
  - vm_compute. discriminate.
Defined.

End KaplanMeierCurve.

(* ===================================================================== *)
(** ** Further properties of the classifiers *)
(* ===================================================================== *)

Section ClassifierFacts.
Import PyStr Frame Spec.




(** X2. No classifier ever reports an event for a marriage without an end
    date, and every classifier returns 0 or 1. *)
Theorem ongoing_is_never_an_event (r : Row) :
  (Analysis.get_event_status r = 0 \/ Analysis.get_event_status r = 1) /\
  (Step3.get_status r = 0 \/ Step3.get_status r = 1) /\
  (Analysis.get_event_status r = 1 -> End_Date r <> None) /\
  (Step3.get_status r = 1 -> End_Date r <> None) /\
  (Step3.get_status r = 0 -> Analysis.get_event_status r = 0).
Proof.
  unfold Analysis.get_event_status, Step3.get_status.
  destruct (End_Date r) as [e|]; simpl.
  - destruct (py_in "death" (lower (py_str (End_Cause r))));
      destruct (py_in "widow" (lower (py_str (End_Cause r)))); simpl;
      repeat split; auto; try congruence.
  - repeat split; auto; congruence.
Qed.

End ClassifierFacts.

(* ===================================================================== *)
(** ** Group statistics of analysis.py *)
(* ===================================================================== *)

Section GroupStatistics.
Import PyStr Frame Stats.

Lemma Qlt_bool_false_iff (x y : Q) : Qlt_bool x y = false <-> (y <= x)%Q.
Proof.
  unfold Qlt_bool. rewrite negb_false_iff. apply Qle_bool_iff.
Qed.

Lemma Qle_bool_false_iff (x y : Q) : Qle_bool x y = false <-> (y < x)%Q.
Proof.
  rewrite <- Qlt_bool_iff. unfold Qlt_bool.
  destruct (Qle_bool x y); simpl; intuition congruence.
Qed.

(** Turns the boolean comparisons among the hypotheses into inequalities. *)
Ltac qbools :=
  repeat match goal with
         | H : Qlt_bool _ _ = true |- _ => apply Qlt_bool_iff in H
         | H : Qlt_bool _ _ = false |- _ => apply Qlt_bool_false_iff in H
         | H : Qle_bool _ _ = true |- _ => apply Qle_bool_iff in H
         | H : Qle_bool _ _ = false |- _ => apply Qle_bool_false_iff in H
         end.

Lemma analysis_event_cases (r : Row) :
  Analysis.Event_Divorce r = 0 \/ Analysis.Event_Divorce r = 1.
Proof. exact (event_divorce_cases r). Qed.

(** The status label is never missing, so the count of labels of a group is
    the number of its rows. *)
Lemma aggregate_total today (g : DataFrame) :
  Total_Marriages (Analysis.aggregate today g) = List.length g.
Proof.
  unfold Analysis.aggregate. cbn [Total_Marriages].
  induction g as [|r g IH]; simpl; [reflexivity|].
  unfold Analysis.Status_Label at 1.
  destruct (analysis_event_cases r) as [-> | ->]; simpl; now rewrite IH.
Qed.

Lemma Qsum_events_bounds (g : DataFrame) :
  (0 <= Qsum (map (fun r => inject_Z (Analysis.Event_Divorce r)) g)
   <= inject_Z (Z.of_nat (List.length g)))%Q.
Proof.
  induction g as [|r g IH].
  - simpl. split; discriminate.
  - cbn [map Qsum fold_right List.length]. fold (Qsum (map (fun r => inject_Z (Analysis.Event_Divorce r)) g)).
    rewrite Nat2Z.inj_succ. unfold Z.succ. rewrite inject_Z_plus.
    destruct IH as [I0 I1].
    destruct (analysis_event_cases r) as [-> | ->];
      change (inject_Z 0) with 0%Q; change (inject_Z 1) with 1%Q; split; lra.
Qed.

(** X3. The divorce rate of a non-empty group is a fraction between 0 and
    1; the rate of an empty group is missing (NaN). *)
Theorem divorce_rate_is_a_fraction today (g : DataFrame) :
  g <> [] ->
  exists q, Divorce_Rate (Analysis.aggregate today g) = Some q /\
            (0 <= q <= 1)%Q.
Proof.
  intros Hg. destruct g as [|r g]; [congruence|].
  unfold Analysis.aggregate. cbn [Divorce_Rate].
  set (l := r :: g).
  pose proof (Qsum_events_bounds l) as [H0 H1].
  unfold mean. cbn [map]. eexists. split; [reflexivity|].
  change (inject_Z (Analysis.Event_Divorce r)
          :: map (fun r0 => inject_Z (Analysis.Event_Divorce r0)) g)
    with (map (fun r0 => inject_Z (Analysis.Event_Divorce r0)) l).
  rewrite length_map.
  assert (Hn : (0 < inject_Z (Z.of_nat (List.length l)))%Q).
  { change 0%Q with (inject_Z 0). rewrite <- Zlt_Qlt. subst l. simpl. lia. }
  split.
  - apply Qle_shift_div_l; [exact Hn | now rewrite Qmult_0_l].
  - apply Qle_shift_div_r; [exact Hn | now rewrite Qmult_1_l].
Qed.

Lemma divorce_rate_is_a_fraction_witness :
  exists q, Divorce_Rate (Analysis.aggregate Samples.today
                            [Samples.divorce_row; Samples.no_start_row]) = Some q /\
            (0 <= q <= 1)%Q.
Proof.
  apply (divorce_rate_is_a_fraction Samples.today). discriminate.
Defined.

(** Counting by several masks at once: when the masks that hold for a row
    number as many as [p] tells (0 or 1), the groups together have as many
    rows as [p] selects. *)
Lemma count_by_masks {A} (masks : list (A -> bool)) (p : A -> bool) (l : list A) :
  (forall x, In x l ->
     list_sum (map (fun f : A -> bool => if f x then 1%nat else 0%nat) masks) =
     if p x then 1%nat else 0%nat) ->
  list_sum (map (fun f => List.length (filter f l)) masks) =
  List.length (filter p l).
Proof.
  induction l as [|x l IH]; intros H.
  - clear H. simpl. induction masks as [|f fs IHf]; simpl; [reflexivity | exact IHf].
  - assert (Hstep :
      list_sum (map (fun f => List.length (filter f (x :: l))) masks) =
      (list_sum (map (fun f : A -> bool => if f x then 1 else 0) masks) +
       list_sum (map (fun f => List.length (filter f l)) masks))%nat).
    { clear. induction masks as [|f fs IHf]; simpl; [reflexivity|].
      simpl in IHf. rewrite IHf. destruct (f x); simpl; lia. }
    rewrite Hstep, (H x (or_introl eq_refl)), IH.
    + simpl. destruct (p x); simpl; lia.
    + intros y Hy. apply H. now right.
Qed.

Lemma filter_all {A} (l : list A) : filter (fun _ => true) l = l.
Proof. induction l as [|x l IH]; simpl; [reflexivity | now rewrite IH]. Qed.

(** X4. The lines of the statistics per spouse type count every row of
    [df_clean] exactly once: their totals add up to its length. *)
Theorem fame_stats_totals today raw :
  list_sum (map (fun line => Total_Marriages (snd line))
                (Analysis.fame_stats today raw)) =
  List.length (Analysis.df_clean today raw).
Proof.
  unfold Analysis.fame_stats.
  set (L := Analysis.df_clean today raw).
  set (famous := fun r => String.eqb (Analysis.Spouse_Type r) "Famous Spouse").
  set (plain := fun r => String.eqb (Analysis.Spouse_Type r) "Non-Famous Spouse").
  assert (Hcount : (List.length (filter famous L) + List.length (filter plain L) =
                    List.length L)%nat).
  { rewrite <- (filter_all L) at 3.
    rewrite <- (count_by_masks [famous; plain] (fun _ => true) L).
    - simpl. lia.
    - intros r _. unfold famous, plain, Analysis.Spouse_Type.
      cbn [map list_sum].
      destruct (gt_cell (Spouse_Fame_Score r) 20); reflexivity. }
  cbn [flat_map].
  change (filter (fun r => String.eqb (Analysis.Spouse_Type r) "Famous Spouse") L)
    with (filter famous L).
  change (filter (fun r => String.eqb (Analysis.Spouse_Type r) "Non-Famous Spouse") L)
    with (filter plain L).
  revert Hcount.
  destruct (filter famous L) as [|a A]; destruct (filter plain L) as [|b B];
    cbn [app map snd list_sum]; rewrite ?aggregate_total;
    cbn [List.length]; unfold list_sum; cbn [fold_right]; lia.
Qed.

End GroupStatistics.

Section AgeGapBins.
Import PyStr Frame Stats.

Lemma age_gap_nonneg (r : Row) (g : Q) :
  Analysis.Age_Gap r = Some g -> (0 <= g)%Q.
Proof.
  unfold Analysis.Age_Gap.
  destruct (Celebrity_Birth r) as [c|], (Spouse_Birth r) as [s|];
    try discriminate.
  intros H.
  assert (E : g = Qabs (years_of_days (td_days (c - s)))) by congruence.
  rewrite E. apply Qabs_nonneg.
Qed.

(** Where [pd.cut] puts an age gap, edge by edge of [bins]. *)
Lemma cut_bins_cases (g : Q) :
  ((g <= 0)%Q /\ cut Analysis.bins Analysis.labels g = None) \/
  ((0 < g <= 5)%Q /\ cut Analysis.bins Analysis.labels g = Some "0-5 Years") \/
  ((5 < g <= 10)%Q /\ cut Analysis.bins Analysis.labels g = Some "5-10 Years") \/
  ((10 < g <= 20)%Q /\ cut Analysis.bins Analysis.labels g = Some "10-20 Years") \/
  ((20 < g <= 100)%Q /\ cut Analysis.bins Analysis.labels g = Some "20+ Years") \/
  ((100 < g)%Q /\ cut Analysis.bins Analysis.labels g = None).
Proof.
  unfold Analysis.bins, Analysis.labels. cbn [cut].
  destruct (Qlt_bool 0 g) eqn:A0;
    [destruct (Qle_bool g 5) eqn:B0|]; cbn [andb].
  1: { apply Qlt_bool_iff in A0. apply Qle_bool_iff in B0. right; left. auto. }
  2: { apply Qlt_bool_false_iff in A0.
       destruct (Qlt_bool 5 g) eqn:A1; [apply Qlt_bool_iff in A1; lra|].
       destruct (Qlt_bool 10 g) eqn:A2; [apply Qlt_bool_iff in A2; lra|].
       destruct (Qlt_bool 20 g) eqn:A3; [apply Qlt_bool_iff in A3; lra|].
       cbn [andb]. left. auto. }
  apply Qlt_bool_iff in A0. apply Qle_bool_false_iff in B0.
  destruct (Qlt_bool 5 g) eqn:A1; [|apply Qlt_bool_false_iff in A1; lra].
  destruct (Qle_bool g 10) eqn:B1; cbn [andb].
  { apply Qle_bool_iff in B1. right; right; left. auto. }
  apply Qle_bool_false_iff in B1.
  destruct (Qlt_bool 10 g) eqn:A2; [|apply Qlt_bool_false_iff in A2; lra].
  destruct (Qle_bool g 20) eqn:B2; cbn [andb].
  { apply Qle_bool_iff in B2. right; right; right; left. auto. }
  apply Qle_bool_false_iff in B2.
  destruct (Qlt_bool 20 g) eqn:A3; [|apply Qlt_bool_false_iff in A3; lra].
  destruct (Qle_bool g 100) eqn:B3; cbn [andb].
  { apply Qle_bool_iff in B3. right; right; right; right; left. auto. }
  apply Qle_bool_false_iff in B3. right; right; right; right; right. auto.
Qed.

(** X5. The age-gap bin of a record is the half-open interval that holds
    its gap: (0, 5], (5, 10], (10, 20] or (20, 100]; a gap of exactly 0
    (spouses born on the same day) and a gap above 100 years have no
    bin. *)
Theorem age_gap_bin_intervals (r : Row) (g : Q) :
  Analysis.Age_Gap r = Some g ->
  (Analysis.Age_Gap_Bin r = Some "0-5 Years" <-> (0 < g <= 5)%Q) /\
  (Analysis.Age_Gap_Bin r = Some "5-10 Years" <-> (5 < g <= 10)%Q) /\
  (Analysis.Age_Gap_Bin r = Some "10-20 Years" <-> (10 < g <= 20)%Q) /\
  (Analysis.Age_Gap_Bin r = Some "20+ Years" <-> (20 < g <= 100)%Q) /\
  (Analysis.Age_Gap_Bin r = None <-> (g == 0)%Q \/ (100 < g)%Q).
Proof.
  intros Hg. pose proof (age_gap_nonneg r g Hg) as Hpos.
  unfold Analysis.Age_Gap_Bin. rewrite Hg.
  destruct (cut_bins_cases g)
    as [[H ->] | [[H ->] | [[H ->] | [[H ->] | [[H ->] | [H ->]]]]]];
    repeat split; intros; try discriminate; try lra;
    try (left; lra); try (right; lra);
    try (exfalso; lra);
    try match goal with
        | H : _ \/ _ |- _ => destruct H; exfalso; lra
        end.
Qed.

Lemma age_gap_bin_intervals_witness :
  Analysis.Age_Gap_Bin Samples.age_gap_5_row = Some "5-10 Years".
Proof.
  destruct (age_gap_bin_intervals Samples.age_gap_5_row
              (Qabs (years_of_days (td_days (Samples.day 0 - Samples.day 2000)))))
    as (_ & H & _).
  - reflexivity.
  - apply H. vm_compute. split; [reflexivity | discriminate].
Defined.

(** X6. The lines of the statistics per age-gap bin count exactly the rows
    of [df_clean] with a non-zero age gap, each once. *)
Theorem age_gap_stats_totals today raw :
  list_sum (map (fun line => Total_Marriages (snd line))
                (Analysis.age_gap_stats today raw)) =
  List.length (filter (fun r => gt_cell (Analysis.Age_Gap r) 0)
                      (Analysis.df_clean today raw)).
Proof.
  unfold Analysis.age_gap_stats.
  set (L := Analysis.df_clean today raw).
  rewrite map_map. cbn [snd].
  rewrite (map_ext _ (fun lab => List.length (filter (Analysis.in_bin lab) L)))
    by (intros lab; apply aggregate_total).
  rewrite <- (map_map Analysis.in_bin (fun f => List.length (filter f L))).
  apply count_by_masks. intros r Hr.
  apply df_clean_iff in Hr as [_ (g & Hg & Hlt)].
  pose proof (age_gap_nonneg r g Hg) as Hpos.
  unfold Analysis.labels. cbn [map list_sum fold_right].
  unfold Analysis.in_bin, Analysis.Age_Gap_Bin. rewrite Hg. cbn [gt_cell].
  destruct (cut_bins_cases g)
    as [[H ->] | [[H ->] | [[H ->] | [[H ->] | [[H ->] | [H ->]]]]]];
    try (exfalso; lra);
    try (assert (E : Qlt_bool 0 g = true) by (apply Qlt_bool_iff; lra);
         rewrite E; reflexivity).
  assert (E : Qlt_bool 0 g = false) by (apply Qlt_bool_false_iff; lra).
  rewrite E. reflexivity.
Qed.

End AgeGapBins.

(* ===================================================================== *)
(** ** The cleaning steps of the scripts compared *)
(* ===================================================================== *)

Section CleaningSteps.
Import PyStr Frame Stats.

Lemma filter_twice {A} (p q : A -> bool) (l : list A) :
  filter p (filter q l) = filter (fun x => q x && p x) l.
Proof.
  induction l as [|x l IH]; simpl; [reflexivity|].
  destruct (q x); simpl; [destruct (p x)|]; now rewrite IH.
Qed.

(** Filtering on the years or on the days keeps the same rows. *)
Lemma positive_years_same_as_days today (r : Row) :
  gt_cell (Duration_Years today r) 0 = gtZ_cell (Duration_Days today r) 0.
Proof.
  unfold Duration_Years.
  destruct (Duration_Days today r) as [d|]; cbn [option_map gt_cell gtZ_cell];
    [|reflexivity].
  destruct (0 <? d) eqn:E.
  - apply Qlt_bool_iff. apply (proj2 (years_of_days_pos d)). now apply Z.ltb_lt.
  - destruct (Qlt_bool 0 (years_of_days d)) eqn:F; [|reflexivity].
    apply Qlt_bool_iff in F. apply (proj1 (years_of_days_pos d)) in F.
    apply Z.ltb_lt in F. congruence.
Qed.

(** X7. step3_comparative_analysis.py, which filters on
    [Duration_Years > 0], retains exactly the table analysis.py and
    step2_analysis.py retain by filtering on [Duration_Days > 0]; the
    normalized table of step5 is that table restricted to the rows with a
    birth date and a career start. *)
Theorem cleaning_steps_agree today raw :
  Step3.df today raw = Analysis.df today raw /\
  Step5.normalized today raw =
    filter (fun r => notnull (Celebrity_Birth r) && notnull (Career_Start_Year r))
           (Analysis.df today raw).
Proof.
  split.
  - unfold Step3.df, Analysis.df. apply filter_ext.
    intros r. apply positive_years_same_as_days.
  - unfold Step5.normalized, Analysis.df, dropna_Start_Date.
    rewrite !filter_twice. apply filter_ext. intros r.
    rewrite positive_years_same_as_days.
    destruct (notnull (Start_Date r)), (notnull (Celebrity_Birth r)),
      (notnull (Career_Start_Year r)), (gtZ_cell (Duration_Days today r) 0);
      reflexivity.
Qed.

Lemma whole_days_positive (x : Z) : 0 < td_days x <-> NS_PER_DAY <= x.
Proof.
  unfold td_days, NS_PER_DAY. split; intros H.
  - destruct (Z_lt_le_dec x 86400000000000) as [Hlt|]; [|assumption].
    assert (x / 86400000000000 < 1) by (apply Z.div_lt_upper_bound; lia). lia.
  - assert (1 <= x / 86400000000000) by (apply Z.div_le_lower_bound; lia). lia.
Qed.

Lemma int64_range_iff (a b : Timestamp) :
  sub_overflows a b = false <-> INT64_MIN <= a - b <= INT64_MAX.
Proof.
  unfold sub_overflows. rewrite orb_false_iff, !Z.ltb_ge. lia.
Qed.

(** When the cleaning completes, its table is [df] and no row with a start
    date overflowed. *)
Lemma run_cleaning_some today raw (t : DataFrame) :
  Analysis.run_cleaning today raw = Some t ->
  t = Analysis.df today raw /\
  forall r s, In r raw -> Start_Date r = Some s ->
              INT64_MIN <= Observed_End_Date today r - s <= INT64_MAX.
Proof.
  unfold Analysis.run_cleaning.
  destruct (existsb (duration_overflows today) (dropna_Start_Date raw)) eqn:E;
    [discriminate|].
  intros [= <-]. split; [reflexivity|]. intros r s Hin Hs.
  apply int64_range_iff.
  destruct (sub_overflows (Observed_End_Date today r) s) eqn:F; [|reflexivity].
  assert (Hex : existsb (duration_overflows today) (dropna_Start_Date raw) = true).
  { apply existsb_exists. exists r. split.
    - unfold dropna_Start_Date. apply filter_In. split; [assumption|].
      now rewrite Hs.
    - unfold duration_overflows. now rewrite Hs. }
  congruence.
Qed.

(** When the cleaning stops, some row with a start date overflowed. *)
Lemma run_cleaning_none today raw :
  Analysis.run_cleaning today raw = None ->
  exists r s, In r raw /\ Start_Date r = Some s /\
              (Observed_End_Date today r - s < INT64_MIN \/
               INT64_MAX < Observed_End_Date today r - s).
Proof.
  unfold Analysis.run_cleaning.
  destruct (existsb (duration_overflows today) (dropna_Start_Date raw)) eqn:E;
    [|discriminate].
  intros _. apply existsb_exists in E as (r & Hin & Hov).
  unfold dropna_Start_Date in Hin. apply filter_In in Hin as [Hin _].
  unfold duration_overflows in Hov.
  destruct (Start_Date r) as [s|] eqn:Hs; [|discriminate].
  exists r, s. repeat split; try assumption.
  unfold sub_overflows in Hov. apply orb_true_iff in Hov.
  rewrite !Z.ltb_lt in Hov. exact Hov.
Qed.

(** X8. The cleaning of analysis.py either stops with OverflowError, which
    happens exactly when for some row with a start date the time from the
    start to the observed end (the end date, or the processing time for an
    ongoing marriage) does not fit int64 nanoseconds, about 292 years; or
    it completes, and then a row is retained exactly when it has a start
    date and at least one full day lies between the start and the
    observed end: a marriage that ended within 24 hours, or whose start
    lies after its observed end, is dropped. *)
Theorem retained_iff_one_full_day today raw :
  match Analysis.run_cleaning today raw with
  | Some t =>
      (forall r s, In r raw -> Start_Date r = Some s ->
                   INT64_MIN <= Observed_End_Date today r - s <= INT64_MAX) /\
      (forall r,
          In r t <->
          In r raw /\
          exists s, Start_Date r = Some s /\
                    s + NS_PER_DAY <= Observed_End_Date today r)
  | None =>
      exists r s, In r raw /\ Start_Date r = Some s /\
                  (Observed_End_Date today r - s < INT64_MIN \/
                   INT64_MAX < Observed_End_Date today r - s)
  end.
Proof.
  destruct (Analysis.run_cleaning today raw) as [t|] eqn:E.
  - destruct (run_cleaning_some today raw t E) as [-> Hfit].
    split; [exact Hfit|]. intros r.
    rewrite analysis_df_iff. unfold Duration_Days. split.
    + intros [Hin (s & d & Hs & Hd & Hpos)]. split; [assumption|].
      exists s. split; [assumption|]. rewrite Hs in Hd. injection Hd as <-.
      apply whole_days_positive in Hpos. lia.
    + intros [Hin (s & Hs & Hle)]. split; [assumption|].
      exists s, (td_days (Observed_End_Date today r - s)). rewrite Hs.
      repeat split. apply whole_days_positive. lia.
  - now apply run_cleaning_none.
Qed.


(** The marriage that ended after 12 hours is dropped. *)
Lemma half_day_marriage_dropped :
  Analysis.df Samples.today [Samples.half_day_row; Samples.divorce_row] =
  [Samples.divorce_row].
Proof. reflexivity. Qed.

End CleaningSteps.

(* ===================================================================== *)
(** ** The features and the training set of step2_analysis.py *)
(* ===================================================================== *)

Section Step2Features.
Import PyStr Frame Stats.

(** X9. The famous-spouse flag of step2_analysis.py, its label and the
    spouse type of analysis.py agree: each says famous exactly when the
    spouse's fame score is present and above 20; a missing score counts as
    not famous in both scripts. *)
Theorem famous_spouse_flags_agree (r : Row) :
  (Step2.Is_Famous_Spouse r = 1 <->
     exists s, Spouse_Fame_Score r = Some s /\ (20 < s)%Q) /\
  (Step2.Is_Famous_Spouse r = 0 \/ Step2.Is_Famous_Spouse r = 1) /\
  (Step2.Spouse_Type_Label r = "Famous Spouse" <-> Step2.Is_Famous_Spouse r = 1) /\
  (Analysis.Spouse_Type r = "Famous Spouse" <-> Step2.Is_Famous_Spouse r = 1).
Proof.
  unfold Step2.Spouse_Type_Label, Analysis.Spouse_Type, Step2.Is_Famous_Spouse.
  destruct (Spouse_Fame_Score r) as [s|]; cbn [fillna gt_cell].
  - destruct (Qlt_bool 20 s) eqn:E; cbn.
    + apply Qlt_bool_iff in E. repeat split; auto; try discriminate.
      intros _. now exists s.
    + apply Qlt_bool_false_iff in E. repeat split; auto; try discriminate.
      intros (s' & [= <-] & H). exfalso. now apply (Qlt_not_le 20 s).
  - cbn. repeat split; auto; try discriminate.
    intros (s' & [=] & _).
Qed.

(** X10. The gaps of step2_analysis.py are never negative; the age gap is
    the gap analysis.py computes, with 0 in place of a missing one. *)
Theorem step2_gaps_nonnegative (r : Row) :
  (0 <= Step2.Age_Gap r)%Q /\ (0 <= Step2.Fame_Gap r)%Q /\
  Step2.Age_Gap r = fillna 0%Q (Analysis.Age_Gap r) /\
  (Analysis.Age_Gap r = None -> Step2.Age_Gap r = 0%Q).
Proof.
  repeat split.
  - unfold Step2.Age_Gap.
    destruct (Celebrity_Birth r), (Spouse_Birth r); cbn [fillna];
      try apply Qabs_nonneg; discriminate.
  - apply Qabs_nonneg.
  - intros H. change (Step2.Age_Gap r) with (fillna 0%Q (Analysis.Age_Gap r)).
    now rewrite H.
Qed.

(** X11. In the training set a censored row always has the target 0: the
    label "short marriage" is only given to an observed divorce. *)
Theorem short_target_only_for_divorces today raw (r : Row) :
  In r (Step2.model_data today raw) ->
  (Step2.Target_Short_Marriage today r = 1 -> Step2.Event_Divorce r = 1) /\
  (Step2.Event_Divorce r = 0 -> Step2.Target_Short_Marriage today r = 0).
Proof.
  unfold Step2.model_data. rewrite filter_In, orb_true_iff, Z.eqb_eq.
  intros [Hin Hsel].
  destruct (cleaned_row_durations today raw r Hin)
    as (s & d & y & _ & _ & _ & Hy & _ & _).
  unfold Step2.Target_Short_Marriage. rewrite Hy in *. cbn [gt_cell le_cell] in *.
  destruct (Qle_bool y 5) eqn:E.
  - apply Qle_bool_iff in E. destruct Hsel as [He | Hgt].
    + split; [auto | congruence].
    + apply Qlt_bool_iff in Hgt. exfalso. now apply (Qlt_not_le 5 y).
  - split; [discriminate | reflexivity].
Qed.

Lemma short_target_only_for_divorces_witness :
  (Step2.Target_Short_Marriage Samples.today Samples.no_cause_row = 1 ->
   Step2.Event_Divorce Samples.no_cause_row = 1) /\
  (Step2.Event_Divorce Samples.no_cause_row = 0 ->
   Step2.Target_Short_Marriage Samples.today Samples.no_cause_row = 0).
Proof.
  apply (short_target_only_for_divorces
           Samples.today [Samples.divorce_row; Samples.no_cause_row]).
  vm_compute. right. left. reflexivity.
Defined.

(** X12. The Kaplan-Meier fit of step2_analysis.py receives one observation
    per cleaned row, in order: its duration in years, which is positive,
    and whether its event flag is 1. *)
Theorem km_input_one_per_row today raw :
  List.length (Step2.km_input today raw) = List.length (Step2.df today raw) /\
  map KaplanMeier.event_observed (Step2.km_input today raw) =
    map (fun r => Step2.Event_Divorce r =? 1) (Step2.df today raw) /\
  map (fun o => Some (KaplanMeier.duration_in_years o)) (Step2.km_input today raw) =
    map (Duration_Years today) (Step2.df today raw) /\
  Forall (fun o => (0 < KaplanMeier.duration_in_years o)%Q)
         (Step2.km_input today raw).
Proof.
  unfold Step2.km_input.
  assert (H : forall r, In r (Step2.df today raw) ->
                        exists y, Duration_Years today r = Some y /\ (0 < y)%Q).
  { intros r Hin. destruct (cleaned_row_durations today raw r Hin)
      as (s & d & y & _ & _ & _ & Hy & _ & Hpos). now exists y. }
  induction (Step2.df today raw) as [|r l IH]; cbn [map present List.length].
  - repeat split. constructor.
  - destruct (H r (or_introl eq_refl)) as (y & Hy & Hpos).
    destruct IH as (I1 & I2 & I3 & I4); [intros x Hx; apply H; now right|].
    rewrite Hy. cbn [option_map present map List.length].
    rewrite I1, I2, I3. repeat split. now constructor.
Qed.

End Step2Features.

(* ===================================================================== *)
(** ** The groups and the regression table of step5 *)
(* ===================================================================== *)

Section Step5Groups.
Import PyStr Frame Stats.

Lemma step5_event_cases (r : Row) : Step5.Event r = 0 \/ Step5.Event r = 1.
Proof.
  unfold Step5.Event, Step5.get_status.
  destruct (isnull (End_Date r)); [now left|].
  destruct (py_in "death" (lower (py_str (End_Cause r)))); [now left | now right].
Qed.

(** X13. In the table handed to the Cox fit the three derived columns are
    complete: every line has a positive duration, an event flag of 0 or 1
    and a child-star flag of 0 or 1; only the children and awards counts,
    read from the file, can be missing. *)
Theorem cox_data_derived_columns_complete today raw line :
  In line (Step5.cox_data today raw) ->
  exists r y,
    In r (Step5.df today raw) /\
    line = (Some y, Step5.Event r, Step5.Is_Child_Star_Binary r,
            Children_Count r, Awards_Count r) /\
    (0 < y)%Q /\
    (Step5.Event r = 0 \/ Step5.Event r = 1) /\
    (Step5.Is_Child_Star_Binary r = 0 \/ Step5.Is_Child_Star_Binary r = 1).
Proof.
  unfold Step5.cox_data. rewrite in_map_iff. intros (r & <- & Hin).
  assert (Hy : exists y, Duration_Years today r = Some y /\ (0 < y)%Q).
  { unfold Step5.df, Step5.normalized in Hin. rewrite !filter_In in Hin.
    destruct Hin as [[_ Hd] _]. now apply gt_cell_iff in Hd. }
  destruct Hy as (y & Hy & Hpos). exists r, y. rewrite Hy.
  repeat split; try assumption.
  - apply step5_event_cases.
  - unfold Step5.Is_Child_Star_Binary.
    destruct (lt_cell (Step5.Age_At_Debut r) 16); [now right | now left].
Qed.

Lemma cox_data_derived_columns_complete_witness :
  exists r y,
    In r (Step5.df Samples.today [Samples.debut_at_10_row]) /\
    (Some (years_of_days 6000), 0, 1, Some 2, Some 0) =
      (Some y, Step5.Event r, Step5.Is_Child_Star_Binary r,
       Children_Count r, Awards_Count r) /\
    (0 < y)%Q /\
    (Step5.Event r = 0 \/ Step5.Event r = 1) /\
    (Step5.Is_Child_Star_Binary r = 0 \/ Step5.Is_Child_Star_Binary r = 1).
Proof.
  apply (cox_data_derived_columns_complete
           Samples.today [Samples.debut_at_10_row]).
  left. reflexivity.
Defined.

(** X14. The children category of a record with a count: "No Kids"
    exactly for 0, "1-2 Kids" exactly for 1 and 2, "3+ Kids" exactly for 3
    to 20, and none exactly for a negative count or a count above 20. *)
Theorem children_category_intervals (r : Row) (n : Z) :
  Children_Count r = Some n ->
  (Step5.Children_Category r = Some "No Kids" <-> n = 0) /\
  (Step5.Children_Category r = Some "1-2 Kids" <-> 1 <= n <= 2) /\
  (Step5.Children_Category r = Some "3+ Kids" <-> 3 <= n <= 20) /\
  (Step5.Children_Category r = None <-> n < 0 \/ 20 < n).
Proof.
  intros Hn.
  destruct (children_category_cases r n Hn) as (H0 & H12 & H3 & Hbig & Hneg).
  assert (Hcase : n < 0 \/ n = 0 \/ 1 <= n <= 2 \/ 3 <= n <= 20 \/ 20 < n) by lia.
  destruct Hcase as [C | [C | [C | [C | C]]]];
    [rewrite (Hneg C) | rewrite (H0 C) | rewrite (H12 C) | rewrite (H3 C)
     | rewrite (Hbig C)];
    repeat split; intros; try discriminate; try lia; auto.
Qed.

Lemma children_category_intervals_witness :
  Step5.Children_Category Samples.debut_at_10_row = Some "1-2 Kids".
Proof.
  destruct (children_category_intervals Samples.debut_at_10_row 2) as (_ & H & _).
  - reflexivity.
  - apply H. lia.
Defined.

(** X15. The two child-star groups split the table of step5: every row is
    in exactly one of them.  The three children groups hold exactly the
    rows with a count from 0 to 20, each once; a row with a missing count
    or a count above 20 is in none of the three curves. *)
Theorem step5_groups_partition today raw :
  (List.length (Step5.child_star_group today raw "Child Star") +
   List.length (Step5.child_star_group today raw "Adult Debut") =
   List.length (Step5.df today raw))%nat /\
  (List.length (Step5.children_group today raw "No Kids") +
   List.length (Step5.children_group today raw "1-2 Kids") +
   List.length (Step5.children_group today raw "3+ Kids") =
   List.length
     (filter (fun r => match Children_Count r with
                       | Some n => (0 <=? n)%Z && (n <=? 20)%Z
                       | None => false
                       end)
             (Step5.df today raw)))%nat.
Proof.
  unfold Step5.child_star_group, Step5.children_group.
  set (L := Step5.df today raw). split.
  - rewrite <- (filter_all L) at 3.
    rewrite <- (count_by_masks
                  [fun r => String.eqb (Step5.Is_Child_Star r) "Child Star";
                   fun r => String.eqb (Step5.Is_Child_Star r) "Adult Debut"]
                  (fun _ => true) L).
    + unfold list_sum. cbn [map fold_right]. lia.
    + intros r _. unfold Step5.Is_Child_Star. cbn [map list_sum].
      destruct (lt_cell (Step5.Age_At_Debut r) 16); reflexivity.
  - set (mask := fun lab (r : Row) =>
                   match Step5.Children_Category r with
                   | Some l => String.eqb l lab
                   | None => false
                   end).
    rewrite <- (count_by_masks
                  [mask "No Kids"; mask "1-2 Kids"; mask "3+ Kids"]
                  (fun r => match Children_Count r with
                            | Some n => (0 <=? n) && (n <=? 20)
                            | None => false
                            end) L).
    + unfold list_sum. cbn [map fold_right]. unfold mask. cbv beta. lia.
    + intros r _. unfold mask. cbn [map list_sum].
      destruct (Children_Count r) as [n|] eqn:Hn.
      * destruct (children_category_cases r n Hn) as (H0 & H12 & H3 & Hbig & Hneg).
        assert (Hcase : n < 0 \/ n = 0 \/ 1 <= n <= 2 \/ 3 <= n <= 20 \/ 20 < n) by lia.
        destruct Hcase as [C | [C | [C | [C | C]]]];
          [rewrite (Hneg C) | rewrite (H0 C) | rewrite (H12 C) | rewrite (H3 C)
           | rewrite (Hbig C)];
          destruct (Z.leb_spec 0 n); destruct (Z.leb_spec n 20); try lia;
          reflexivity.
      * unfold Step5.Children_Category. rewrite Hn. reflexivity.
Qed.

End Step5Groups.

(* ===================================================================== *)
(** ** The control group and the combined table of step3 *)
(* ===================================================================== *)

Section ControlGroup.
Import PyStr Frame Stats.

Lemma filter_map_all {A B} (p : B -> bool) (f : A -> B) (l : list A) :
  (forall x, p (f x) = true) -> filter p (map f l) = map f l.
Proof.
  intros H. induction l as [|x l IH]; simpl; [reflexivity|].
  now rewrite H, IH.
Qed.

Lemma filter_map_none {A B} (p : B -> bool) (f : A -> B) (l : list A) :
  (forall x, p (f x) = false) -> filter p (map f l) = [].
Proof.
  intros H. induction l as [|x l IH]; simpl; [reflexivity|].
  now rewrite H, IH.
Qed.

(** X16. Selecting a group from the combined table gives back the table
    that was put in: the celebrity rows for "Celebrities", the simulated
    rows for the control group; the combined table has one row per cleaned
    celebrity record and one per simulated marriage. *)
Theorem combined_groups_round_trip today raw (draws : list (Q * Z)) :
  Step3.select_group "Celebrities" (Step3.combined_df today raw draws) =
    Step3.df_celebrities today raw /\
  Step3.select_group "General Population (Simulated)"
                     (Step3.combined_df today raw draws) =
    Step3.df_normal draws /\
  List.length (Step3.combined_df today raw draws) =
    (List.length (Step3.df today raw) + List.length draws)%nat.
Proof.
  unfold Step3.select_group, Step3.combined_df, Step3.df_celebrities,
    Step3.df_normal, Step3.simulate.
  rewrite !filter_app, length_app, !length_map.
  repeat split.
  - rewrite filter_map_all by reflexivity.
    rewrite filter_map_none by reflexivity. apply app_nil_r.
  - rewrite filter_map_none by reflexivity.
    rewrite filter_map_all by reflexivity. reflexivity.
Qed.

Lemma cap_years_bounds (x : Q) :
  (0 <= x)%Q -> (0 <= Step3.cap_years x <= 60)%Q.
Proof.
  intros Hx. unfold Step3.cap_years.
  destruct (Qlt_bool 60 x) eqn:E.
  - split; discriminate.
  - apply Qlt_bool_false_iff in E. now split.
Qed.

(** X17. Every simulated marriage has a duration between 0 and 60 years,
    as long as the random draws are not negative; a draw above 4 (which
    would give more than 60 years) yields exactly 60. *)
Theorem control_durations_capped (draws : list (Q * Z)) (g : Step3.GroupRow) :
  (forall w, In w draws -> (0 <= fst w)%Q) ->
  In g (Step3.df_normal draws) ->
  exists w y,
    In w draws /\ Step3.g_Duration_Years g = Some y /\ Step3.g_Event g = snd w /\
    (0 <= y <= 60)%Q /\
    ((4 < fst w)%Q -> y = 60%Q) /\
    ((fst w <= 4)%Q -> y = (fst w * 15)%Q).
Proof.
  intros Hpos Hin. unfold Step3.df_normal, Step3.simulate in Hin.
  rewrite map_map in Hin. apply in_map_iff in Hin as (w & <- & Hw).
  exists w, (Step3.cap_years (fst w * 15)). cbn.
  split; [assumption|]. split; [reflexivity|]. split; [reflexivity|].
  pose proof (Hpos w Hw) as H0.
  split; [apply cap_years_bounds; nra|].
  unfold Step3.cap_years. split; intros H.
  - assert (E : Qlt_bool 60 (fst w * 15) = true) by (apply Qlt_bool_iff; lra).
    now rewrite E.
  - assert (E : Qlt_bool 60 (fst w * 15) = false)
      by (apply Qlt_bool_false_iff; lra).
    now rewrite E.
Qed.

Lemma control_durations_capped_witness :
  exists w y,
    In w Samples.sample_draws /\
    Step3.g_Duration_Years
      (Step3.mkGroupRow (Some 60%Q) 1 "General Population (Simulated)") = Some y /\
    Step3.g_Event
      (Step3.mkGroupRow (Some 60%Q) 1 "General Population (Simulated)") = snd w /\
    (0 <= y <= 60)%Q /\
    ((4 < fst w)%Q -> y = 60%Q) /\
    ((fst w <= 4)%Q -> y = (fst w * 15)%Q).
Proof.
  apply (control_durations_capped Samples.sample_draws).
  - intros w [<- | [<- | []]]; discriminate.
  - right. left. reflexivity.
Defined.

End ControlGroup.

(* ===================================================================== *)
(** ** Parsing the bindings *)
(* ===================================================================== *)

Section Fetching.
Import PyStr.

Lemma before_T_prefix (s : string) :
  exists rest, s = Fetch.before_T s ++ rest /\
               (rest = "" \/ exists rest', rest = String "T" rest').
Proof.
  induction s as [|c s IH]; simpl.
  - exists "". auto.
  - destruct (Ascii.eqb c "T") eqn:E.
    + apply Ascii.eqb_eq in E. subst c. exists (String "T" s). simpl.
      split; [reflexivity | right; now exists s].
    + destruct IH as (rest & Hs & Hrest). exists rest. simpl.
      split; [now rewrite <- Hs | assumption].
Qed.

Lemma before_T_has_no_T (s : string) : py_in "T" (Fetch.before_T s) = false.
Proof.
  induction s as [|c s IH]; [reflexivity|].
  cbn [Fetch.before_T].
  destruct (Ascii.eqb c "T") eqn:E; [reflexivity|].
  change (py_in "T" (String c (Fetch.before_T s)))
    with ((Ascii.eqb "T" c && true) || py_in "T" (Fetch.before_T s)).
  rewrite Ascii.eqb_sym, E. exact IH.
Qed.

Lemma before_T_fixed (s : string) :
  py_in "T" s = false -> Fetch.before_T s = s.
Proof.
  induction s as [|c s IH]; [reflexivity|].
  change (py_in "T" (String c s))
    with ((Ascii.eqb "T" c && true) || py_in "T" s).
  cbn [Fetch.before_T].
  rewrite Ascii.eqb_sym. destruct (Ascii.eqb c "T"); [discriminate|].
  intros H. now rewrite IH.
Qed.

Lemma clean_date_some (s : string) :
  Fetch.clean_date (Some s) = Some (Fetch.before_T s).
Proof. destruct s; reflexivity. Qed.

(** X18. When the binding of a marriage has a start value, the record
    keeps the part of it before the first "T": a prefix of the value that
    holds no "T", the rest being empty or starting with "T"; a value
    without "T" is kept whole, and cleaning a cleaned date changes
    nothing. *)
Theorem start_date_is_cut_at_T (it : Fetch.item) (s : string) :
  Fetch.get_val it "start" = Some s ->
  exists d rest,
    Fetch.Start_Date (Fetch.parse_item it) = Some d /\
    s = d ++ rest /\
    (rest = "" \/ exists rest', rest = String "T" rest') /\
    py_in "T" d = false /\
    (py_in "T" s = false -> d = s) /\
    Fetch.clean_date (Some d) = Some d.
Proof.
  intros Hs. destruct (before_T_prefix s) as (rest & Hsplit & Hrest).
  exists (Fetch.before_T s), rest. cbn [Fetch.parse_item Fetch.Start_Date].
  rewrite Hs, clean_date_some.
  repeat split; try assumption.
  - apply before_T_has_no_T.
  - apply before_T_fixed.
  - rewrite clean_date_some.
    now rewrite (before_T_fixed _ (before_T_has_no_T s)).
Qed.

Lemma start_date_is_cut_at_T_witness :
  exists d rest,
    Fetch.Start_Date (Fetch.parse_item Samples.sample_item) = Some d /\
    "2010-01-01T00:00:00Z" = d ++ rest /\
    (rest = "" \/ exists rest', rest = String "T" rest') /\
    py_in "T" d = false /\
    (py_in "T" "2010-01-01T00:00:00Z" = false -> d = "2010-01-01T00:00:00Z") /\
    Fetch.clean_date (Some d) = Some d.
Proof.
  apply (start_date_is_cut_at_T Samples.sample_item). reflexivity.
Defined.

End Fetching.

(* ===================================================================== *)
(** ** The processing time *)
(* ===================================================================== *)

Section ProcessingTime.
Import PyStr Frame.

(** The retained rows and their day counts grow with the processing
    time, as long as the differences are in range. *)
Lemma df_grows_with_today (t1 t2 : Timestamp) raw (r : Row) :
  t1 <= t2 ->
  In r (Analysis.df t1 raw) ->
  In r (Analysis.df t2 raw) /\
  (exists d1 d2, Duration_Days t1 r = Some d1 /\
                 Duration_Days t2 r = Some d2 /\ d1 <= d2) /\
  (End_Date r <> None -> Duration_Days t2 r = Duration_Days t1 r).
Proof.
  intros Ht Hin. apply analysis_df_iff in Hin as [Hraw (s & d & Hs & Hd & Hpos)].
  unfold Duration_Days, Observed_End_Date in *. rewrite Hs in *.
  injection Hd as Hd.
  assert (Hmono : d <= td_days (fillna t2 (End_Date r) - s)).
  { rewrite <- Hd. unfold td_days, NS_PER_DAY.
    apply Z.div_le_mono; [lia|].
    destruct (End_Date r); cbn [fillna]; lia. }
  split; [|split].
  - apply analysis_df_iff. split; [assumption|].
    exists s, (td_days (fillna t2 (End_Date r) - s)).
    unfold Duration_Days, Observed_End_Date. rewrite Hs.
    repeat split. lia.
  - exists d, (td_days (fillna t2 (End_Date r) - s)).
    rewrite Hd. repeat split. exact Hmono.
  - intros He. destruct (End_Date r); [reflexivity | congruence].
Qed.

(** X19. When the cleaning of analysis.py completes at a processing time
    and at a later one, every row retained by the earlier run is retained
    by the later run, its day count does not shrink, and when the marriage
    has an end date the day count is the same in both runs.  The later
    run need not complete: an ongoing marriage may by then span more than
    int64 nanoseconds. *)
Theorem later_run_keeps_rows (t1 t2 : Timestamp) raw (T1 T2 : DataFrame) (r : Row) :
  t1 <= t2 ->
  Analysis.run_cleaning t1 raw = Some T1 ->
  Analysis.run_cleaning t2 raw = Some T2 ->
  In r T1 ->
  In r T2 /\
  (exists d1 d2, Duration_Days t1 r = Some d1 /\
                 Duration_Days t2 r = Some d2 /\ d1 <= d2) /\
  (End_Date r <> None -> Duration_Days t2 r = Duration_Days t1 r).
Proof.
  intros Ht H1 H2 Hin.
  destruct (run_cleaning_some t1 raw T1 H1) as [-> _].
  destruct (run_cleaning_some t2 raw T2 H2) as [-> _].
  now apply df_grows_with_today.
Qed.

Lemma later_run_keeps_rows_witness :
  In Samples.divorce_row [Samples.divorce_row] /\
  (exists d1 d2,
      Duration_Days (Samples.day 20000) Samples.divorce_row = Some d1 /\
      Duration_Days Samples.today Samples.divorce_row = Some d2 /\ d1 <= d2) /\
  (End_Date Samples.divorce_row <> None ->
   Duration_Days Samples.today Samples.divorce_row =
   Duration_Days (Samples.day 20000) Samples.divorce_row).
Proof.
  apply (later_run_keeps_rows (Samples.day 20000) Samples.today
                              [Samples.divorce_row]
                              [Samples.divorce_row] [Samples.divorce_row]).
  - vm_compute. discriminate.
  - reflexivity.
  - reflexivity.
  - left. reflexivity.
Defined.

(** The later run can stop: the marriage that began in 1735 and is still
    ongoing is retained at the earlier processing time and overflows at
    the later one. *)
Lemma later_run_can_overflow :
  Analysis.run_cleaning Samples.today [Samples.old_ongoing_row] =
    Some [Samples.old_ongoing_row] /\
  Analysis.run_cleaning Samples.later [Samples.old_ongoing_row] = None.
Proof. split; reflexivity. Qed.

End ProcessingTime.

(* ===================================================================== *)
(** ** The median duration of a group *)
(* ===================================================================== *)

Section MedianDuration.
Import PyStr Frame Stats.

Lemma insert_sorted_In (x y : Q) (l : list Q) :
  In y (insert_sorted x l) -> y = x \/ In y l.
Proof.
  induction l as [|z l IH]; simpl.
  - intros [<- | []]. now left.
  - destruct (Qle_bool x z); simpl.
    + intros [<- | H]; [now left | now right].
    + intros [<- | H]; [right; now left|].
      destruct (IH H); [now left | right; now right].
Qed.

Lemma insert_sorted_length (x : Q) (l : list Q) :
  List.length (insert_sorted x l) = S (List.length l).
Proof.
  induction l as [|z l IH]; simpl; [reflexivity|].
  destruct (Qle_bool x z); simpl; [reflexivity | now rewrite IH].
Qed.

Lemma sort_In (y : Q) (l : list Q) : In y (sort l) -> In y l.
Proof.
  unfold sort. induction l as [|x l IH]; simpl; [tauto|].
  intros H. apply insert_sorted_In in H as [-> | H]; [now left | right; auto].
Qed.

Lemma sort_length (l : list Q) : List.length (sort l) = List.length l.
Proof.
  unfold sort. induction l as [|x l IH]; simpl; [reflexivity|].
  now rewrite insert_sorted_length, IH.
Qed.

(** The median of positive values is a positive value. *)
Lemma median_positive (l : list Q) :
  l <> [] -> (forall x, In x l -> (0 < x)%Q) ->
  exists m, median l = Some m /\ (0 < m)%Q.
Proof.
  intros Hne Hpos. unfold median.
  pose proof (sort_length l) as Hlen.
  assert (Hs : forall i, (i < List.length (sort l))%nat ->
                         (0 < nth i (sort l) 0)%Q).
  { intros i Hi. apply Hpos, sort_In, nth_In, Hi. }
  destruct (List.length (sort l)) as [|k] eqn:Hn.
  - destruct l; [congruence | simpl in Hlen; lia].
  - assert (Hhalf : (S k / 2 < S k)%nat) by (apply Nat.div_lt; lia).
    destruct (Nat.even (S k)).
    + eexists. split; [reflexivity|].
      assert (H1 : (0 < nth (S k / 2 - 1) (sort l) 0)%Q) by (apply Hs; lia).
      assert (H2 : (0 < nth (S k / 2) (sort l) 0)%Q) by (apply Hs; lia).
      unfold Qdiv. change (/ 2)%Q with (1 # 2)%Q. lra.
    + eexists. split; [reflexivity|]. apply Hs; lia.
Qed.

(** X20. The median duration of a non-empty group of cleaned rows is
    present and positive. *)
Theorem median_duration_positive today raw (g : DataFrame) :
  g <> [] ->
  (forall r, In r g -> In r (Analysis.df today raw)) ->
  exists m, Median_Duration (Analysis.aggregate today g) = Some m /\ (0 < m)%Q.
Proof.
  intros Hne Hsub. unfold Analysis.aggregate. cbn [Median_Duration].
  apply median_positive.
  - destruct g as [|r g]; [congruence|].
    destruct (cleaned_row_durations today raw r (Hsub r (or_introl eq_refl)))
      as (s & d & y & _ & _ & _ & Hy & _ & _).
    cbn [map]. rewrite Hy. discriminate.
  - intros x Hx. apply present_In, in_map_iff in Hx as (r & Hr & Hin).
    destruct (cleaned_row_durations today raw r (Hsub r Hin))
      as (s & d & y & _ & _ & _ & Hy & _ & Hpos).
    rewrite Hy in Hr. now injection Hr as <-.
Qed.

Lemma median_duration_positive_witness :
  exists m, Median_Duration
              (Analysis.aggregate Samples.today
                 [Samples.divorce_row; Samples.no_cause_row]) = Some m /\
            (0 < m)%Q.
Proof.
  apply (median_duration_positive
           Samples.today [Samples.divorce_row; Samples.no_cause_row]).
  - discriminate.
  - intros r [<- | [<- | []]]; vm_compute; [left | right; left]; reflexivity.
Defined.

End MedianDuration.
